(** * wikitree.public: the microdata normaliser and the lazily loaded node

    A shallow embedding of [src/wikitree/public.py]: the recursive
    normaliser [MicrodataView.__process_microdata__], the constructor
    [Person.__init__], and the lazy-loading protocol of [MicrodataView]
    ([load], [__getattr__], [__repr__], [__dir__]).

    Python values are modelled as trees.  Exceptions are modelled by the
    [result] type; the fetch and the microdata extraction are an oracle that
    the node consults, and every consultation is recorded in a log. *)

From Stdlib Require Import String Ascii List Bool Arith Lia.
Import ListNotations.
Open Scope string_scope.
Set Warnings "-register-all".

(** ** Exceptions *)

(** The exception classes that the modelled code can raise or let through. *)
Inductive exn : Type :=
| KeyError
| IndexError
| TypeError
| AttributeError
| ValueError
| RecursionError
| URLError.

Inductive result (A : Type) : Type :=
| Ok (a : A)
| Raise (e : exn).
Arguments Ok {A} a.
Arguments Raise {A} e.

Definition rbind {A B} (r : result A) (f : A -> result B) : result B :=
  match r with
  | Ok a => f a
  | Raise e => Raise e
  end.

Definition rmap {A B} (f : A -> B) (r : result A) : result B :=
  rbind r (fun a => Ok (f a)).

Declare Scope py_scope.
Delimit Scope py_scope with py.
Notation "x <- r ;; k" := (rbind r (fun x => k))
  (at level 61, r at next level, right associativity) : py_scope.
Open Scope py_scope.

(** ** Values *)

(** The documents handed to the normaliser are built from [str], [list] and
    [dict] only.  A [dict] is an association list in insertion order; the
    dictionaries Python builds have pairwise distinct keys.  [RDict] stands
    for a dictionary of class [dict] itself, the one for which the test
    [type(data) == dict] of the normaliser holds and whose missing keys raise
    [KeyError]; instances of subclasses of [dict] are not values of this
    type. *)
Inductive raw : Type :=
| RStr (s : string)
| RList (l : list raw)
| RDict (d : list (string * raw)).

(** The entity kinds that can be constructed; the source has one. *)
Inductive kind : Type :=
| Person.

(** What an attribute can hold.  [VNode k d] is an instance of class [k] with
    instance dictionary [d].  [VMethod] stands for a function defined in a
    class body.  [VSelfDict] is a reference to the very dictionary that holds
    it: [load] stores such a reference under [__data__] (see [load]), and a
    finite tree cannot contain itself. *)
Inductive pyval : Type :=
| VStr (s : string)
| VList (l : list pyval)
| VDict (d : list (string * pyval))
| VNode (k : kind) (d : list (string * pyval))
| VBool (b : bool)
| VNone
| VMethod (name : string)
| VSelfDict.

Definition rdict := list (string * raw).
Definition dict := list (string * pyval).

(** A document seen as a value, unchanged. *)
Fixpoint embed (x : raw) : pyval :=
  match x with
  | RStr s => VStr s
  | RList l => VList (map embed l)
  | RDict d => VDict (map (fun kv => (fst kv, embed (snd kv))) d)
  end.

(** ** Dictionaries *)

Section Dict.
Context {V : Type}.

(** [d.get(k)] *)
Fixpoint lookup (k : string) (d : list (string * V)) : option V :=
  match d with
  | [] => None
  | (k', v) :: rest => if String.eqb k k' then Some v else lookup k rest
  end.

(** [k in d] *)
Definition has_key (k : string) (d : list (string * V)) : bool :=
  match lookup k d with
  | Some _ => true
  | None => false
  end.

(** [d[k] = v]: an existing key keeps its position, a new one is appended. *)
Fixpoint dict_set (k : string) (v : V) (d : list (string * V)) : list (string * V) :=
  match d with
  | [] => [(k, v)]
  | (k', v') :: rest =>
      if String.eqb k k' then (k', v) :: rest else (k', v') :: dict_set k v rest
  end.

(** [d.keys()] *)
Definition keys (d : list (string * V)) : list string := map fst d.
End Dict.

(** ** Strings *)

(** [sub in s] on strings. *)
Fixpoint contains (sub s : string) : bool :=
  String.prefix sub s ||
  match s with
  | EmptyString => false
  | String _ s' => contains sub s'
  end.

(** [s.replace(old, new)] for a non-empty [old]: scan from the left; at a
    match emit [new] and skip the matched characters.  [skip] counts the
    characters of the current match that are still to be dropped. *)
Fixpoint replace_from (old new : string) (skip : nat) (s : string) : string :=
  match s with
  | EmptyString => EmptyString
  | String c s' =>
      match skip with
      | S n => replace_from old new n s'
      | O =>
          if String.prefix old s
          then new ++ replace_from old new (String.length old - 1) s'
          else String c (replace_from old new 0 s')
      end
  end.

Definition py_replace (old new s : string) : string := replace_from old new 0 s.

(** ** Module-level tables *)

(** [__always_lists__] *)
Definition __always_lists__ : list string := ["spouse"; "parent"; "marriage"; "children"].

(** [__type__mapping__] *)
Definition __type__mapping__ : list (string * kind) := [("http://schema.org/Person", Person)].

(** [Person.__keys__] *)
Definition __keys__ : list string :=
  ["additionalName"; "birth"; "birthDate"; "children"; "death"; "deathDate";
   "familyName"; "gender"; "givenName"; "image"; "marriage"; "name"; "parent";
   "sibling"; "spouse"; "startDate"; "url"].

(** [key in __always_lists__]; [None] is not a member. *)
Definition in_always_lists (key : option string) : bool :=
  match key with
  | None => false
  | Some k => existsb (String.eqb k) __always_lists__
  end.

(** ** Indexing and membership on documents *)

(** [x[k]] with a string [k]. *)
Definition getitem (x : raw) (k : string) : result raw :=
  match x with
  | RDict d =>
      match lookup k d with
      | Some v => Ok v
      | None => Raise KeyError
      end
  | RList _ => Raise TypeError
  | RStr _ => Raise TypeError
  end.

(** [x[0]] *)
Definition index0 (x : raw) : result raw :=
  match x with
  | RList (a :: _) => Ok a
  | RList [] => Raise IndexError
  | RStr (String c _) => Ok (RStr (String c EmptyString))
  | RStr EmptyString => Raise IndexError
  | RDict _ => Raise KeyError
  end.

(** [__type__mapping__.get(x)], after the hashing that [x in __type__mapping__]
    performs: lists and dictionaries are unhashable. *)
Definition mapped_kind (x : raw) : result (option kind) :=
  match x with
  | RStr s => Ok (lookup s __type__mapping__)
  | RList _ => Raise TypeError
  | RDict _ => Raise TypeError
  end.

(** [s in x] for a string [s]: substring, element or key. *)
Definition str_in (s : string) (x : raw) : bool :=
  match x with
  | RStr t => contains s t
  | RList l =>
      existsb (fun e => match e with RStr t => String.eqb s t | _ => false end) l
  | RDict d => has_key s d
  end.

(** [s + x] for a string [s]. *)
Definition str_add (s : string) (x : raw) : result raw :=
  match x with
  | RStr t => Ok (RStr (s ++ t))
  | _ => Raise TypeError
  end.

(** One element of the sequence given to [dict(...)]: it must iterate to
    exactly two items, the first of them hashable. *)
Definition pair_of (e : raw) : result (string * raw) :=
  match e with
  | RStr (String a (String b EmptyString)) =>
      Ok (String a EmptyString, RStr (String b EmptyString))
  | RStr _ => Raise ValueError
  | RList [RStr k; v] => Ok (k, v)
  | RList [_; _] => Raise TypeError
  | RList _ => Raise ValueError
  | RDict [(k1, _); (k2, _)] => Ok (k1, RStr k2)
  | RDict _ => Raise ValueError
  end.

Fixpoint dict_of_pairs (acc : rdict) (l : list raw) : result rdict :=
  match l with
  | [] => Ok acc
  | e :: rest => kv <- pair_of e ;; dict_of_pairs (dict_set (fst kv) (snd kv) acc) rest
  end.

(** [dict(x)] *)
Definition py_dict (x : raw) : result rdict :=
  match x with
  | RDict d => Ok d
  | RList l => dict_of_pairs [] l
  | RStr EmptyString => Ok []
  | RStr _ => Raise ValueError
  end.

(** ** [Person.__init__] *)

Definition site_origin : string := "http://www.wikitree.com".
Definition profile_template : string := "http://www.wikitree.com/wiki/".

(** The three-way rule on a string argument. *)
Definition canonical_url (url : string) : string :=
  if contains "http://" url then url
  else if contains "/wiki" url then site_origin ++ url
  else profile_template ++ url.

(** [Person(url)]: the instance dictionary of the new object.  The class
    attributes [__loaded__] and [__data__] are not copied into it. *)
Definition Person_init (url : raw) : result dict :=
  if str_in "http://" url then Ok [("url", embed url)]
  else if str_in "/wiki" url then
    u <- str_add site_origin url ;; Ok [("url", embed u)]
  else
    u <- str_add profile_template url ;; Ok [("url", embed u)].

(** [__type__mapping__[t](url)] *)
Definition construct (k : kind) (url : raw) : result pyval :=
  match k with
  | Person => d <- Person_init url ;; Ok (VNode Person d)
  end.

(** ** [MicrodataView.__process_microdata__] *)

(** The recursion of the source is not structural: the branch for a bag with
    an unmapped type normalises [dict(data['properties'])], a dictionary that
    [dict] may have built from a list of pairs.  The recursion is therefore
    written over a bound [fuel] on its depth; [None] means that the bound was
    reached, [Some r] that the call completed with [r]. *)

(** The list comprehension [[f(d) for d in l]]: the first exception ends it. *)
Fixpoint map_items (f : raw -> option (result pyval)) (l : list raw)
  : option (result (list pyval)) :=
  match l with
  | [] => Some (Ok [])
  | x :: rest =>
      match f x with
      | None => None
      | Some (Raise e) => Some (Raise e)
      | Some (Ok v) =>
          match map_items f rest with
          | None => None
          | Some (Raise e) => Some (Raise e)
          | Some (Ok vs) => Some (Ok (v :: vs))
          end
      end
  end.

(** The loop [for k, v in data.items(): data[k] = f(k, v)] followed by
    [return data]: every key keeps its position. *)
Fixpoint map_entries (f : string -> raw -> option (result pyval)) (d : rdict)
  : option (result dict) :=
  match d with
  | [] => Some (Ok [])
  | (k, x) :: rest =>
      match f k x with
      | None => None
      | Some (Raise e) => Some (Raise e)
      | Some (Ok v) =>
          match map_entries f rest with
          | None => None
          | Some (Raise e) => Some (Raise e)
          | Some (Ok vs) => Some (Ok ((k, v) :: vs))
          end
      end
  end.

Definition omap {A B} (f : A -> B) (o : option (result A)) : option (result B) :=
  match o with
  | None => None
  | Some r => Some (rmap f r)
  end.

Fixpoint process_microdata_n (fuel : nat) (key : option string) (data : raw)
  : option (result pyval) :=
  match fuel with
  | O => None
  | S n =>
      match data with
      | RList l =>
          if Nat.eqb (List.length l) 1 && negb (in_always_lists key) then
            match l with
            | x :: _ => process_microdata_n n key x
            | [] => Some (Raise IndexError)
            end
          else omap VList (map_items (process_microdata_n n key) l)
      | RDict d =>
          if has_key "type" d then
            match (ty <- getitem data "type" ;; t0 <- index0 ty ;; mapped_kind t0) with
            | Raise e => Some (Raise e)
            | Ok (Some k) =>
                Some (props <- getitem data "properties" ;;
                      urls <- getitem props "url" ;;
                      url <- index0 urls ;;
                      construct k url)
            | Ok None =>
                match (props <- getitem data "properties" ;; py_dict props) with
                | Raise e => Some (Raise e)
                | Ok copy => process_microdata_n n key (RDict copy)
                end
            end
          else omap VDict (map_entries (fun k v => process_microdata_n n (Some k) v) d)
      | RStr s =>
          match key with
          | None =>
              (* ['type' in data] is a substring test; then [data['type']]
                 or [data.items()] fails on a string *)
              if contains "type" s then Some (Raise TypeError)
              else Some (Raise AttributeError)
          | Some _ => Some (Ok (VStr s))
          end
      end
  end.

(** The nesting depth of a document bounds the depth of the recursion. *)
Fixpoint height (x : raw) : nat :=
  match x with
  | RStr _ => 1
  | RList l => S (fold_right (fun e m => Nat.max (height e) m) 0 l)
  | RDict d => S (fold_right (fun kv m => Nat.max (height (snd kv)) m) 0 d)
  end.

(** [self.__process_microdata__(key, data)].  The default is never taken
    ([process_n_enough] below). *)
Definition __process_microdata__ (key : option string) (data : raw) : result pyval :=
  match process_microdata_n (height data) key data with
  | Some r => r
  | None => Raise RecursionError
  end.

(** The same loops on completed calls. *)
Fixpoint map_result (f : raw -> result pyval) (l : list raw) : result (list pyval) :=
  match l with
  | [] => Ok []
  | x :: rest => v <- f x ;; vs <- map_result f rest ;; Ok (v :: vs)
  end.

Fixpoint map_values (f : string -> raw -> result pyval) (d : rdict) : result dict :=
  match d with
  | [] => Ok []
  | (k, x) :: rest => v <- f k x ;; vs <- map_values f rest ;; Ok ((k, v) :: vs)
  end.

(** One pass through the body of the method, its recursive calls being
    calls of [__process_microdata__]; [process_unfold] shows that
    [__process_microdata__] satisfies this equation. *)
Definition process_microdata_body (key : option string) (data : raw) : result pyval :=
  match data with
  | RList l =>
      if Nat.eqb (List.length l) 1 && negb (in_always_lists key) then
        match l with
        | x :: _ => __process_microdata__ key x
        | [] => Raise IndexError
        end
      else rmap VList (map_result (__process_microdata__ key) l)
  | RDict d =>
      if has_key "type" d then
        k <- (ty <- getitem data "type" ;; t0 <- index0 ty ;; mapped_kind t0) ;;
        match k with
        | Some k =>
            props <- getitem data "properties" ;;
            urls <- getitem props "url" ;;
            url <- index0 urls ;;
            construct k url
        | None =>
            props <- getitem data "properties" ;;
            copy <- py_dict props ;;
            __process_microdata__ key (RDict copy)
        end
      else rmap VDict (map_values (fun k v => __process_microdata__ (Some k) v) d)
  | RStr s =>
      match key with
      | None => if contains "type" s then Raise TypeError else Raise AttributeError
      | Some _ => Ok (VStr s)
      end
  end.

(** ** The lazily loaded node *)

(** What fetching a URL and extracting its microdata gives: a transport
    failure, or the items of the page, each given by the dictionary that
    [json_dict()['properties']] returns for it. *)
Inductive response : Type :=
| Unreachable
| Page (items : list rdict).

(** A node and the requests issued so far. *)
Record state : Type := mkState {
  cls : kind;              (* the class of the object *)
  attrs : dict;            (* its [__dict__] *)
  fetched : list string    (* the URLs opened so far, oldest first *)
}.

(** What [__repr__] returns: the short tag, or the pretty-printer applied to
    the instance dictionary. *)
Inductive rendering : Type :=
| Tag (s : string)
| PFormat (d : dict).

(** [bool(v)] *)
Definition truthy (v : pyval) : bool :=
  match v with
  | VStr s => negb (String.eqb s "")
  | VList l => negb (Nat.eqb (List.length l) 0)
  | VDict d => negb (Nat.eqb (List.length d) 0)
  | VNode _ _ => true
  | VBool b => b
  | VNone => false
  | VMethod _ => true
  | VSelfDict => true
  end.

(** [self.__class__.__name__] *)
Definition class_name (k : kind) : string :=
  match k with
  | Person => "Person"
  end.

(** The names bound in the class bodies of [MicrodataView] and [Person]. *)
Definition class_attr (k : kind) (name : string) : option pyval :=
  if String.eqb name "__loaded__" then Some (VBool false)
  else if String.eqb name "__data__" then Some VNone
  else if String.eqb name "__keys__" then
    match k with Person => Some (VList (map VStr __keys__)) end
  else if existsb (String.eqb name)
            ["__init__"; "load"; "__process_microdata__"; "__getattr__";
             "__repr__"; "__dir__"]
  then Some (VMethod name)
  else None.

Module MicrodataView.

Section Node.

(** The fetch and extraction collaborators: the answer to the [n]-th
    request (counting from 0) when it asks for [url]. *)
Variable web : nat -> string -> response.

(** What attribute lookup finds on [object] itself ([__class__],
    [__doc__], ...): not part of this module, consulted last. *)
Variable object_attr : string -> option pyval.

(** Ordinary attribute lookup, [object.__getattribute__]: the instance
    dictionary, then the classes.  [None] stands for [AttributeError]. *)
Definition getattribute (k : kind) (d : dict) (name : string) : option pyval :=
  match lookup name d with
  | Some v => Some v
  | None =>
      match class_attr k name with
      | Some v => Some v
      | None => object_attr name
      end
  end.

(** [self.__loaded__], as a condition. *)
Definition loaded (st : state) : bool :=
  match getattribute (cls st) (attrs st) "__loaded__" with
  | Some v => truthy v
  | None => false
  end.

(** [self.url] as [load] evaluates it.  When ordinary lookup
    fails, [__getattr__] runs: on a loaded node it re-raises the
    [AttributeError]; on an unloaded one it calls [load], which evaluates
    [self.url] again, and the interpreter ends the regress with
    [RecursionError]. *)
Definition read_url (st : state) : result pyval :=
  match getattribute (cls st) (attrs st) "url" with
  | Some v => Ok v
  | None => if loaded st then Raise AttributeError else Raise RecursionError
  end.

(** [MicrodataView.load].  A request is logged when [urlopen] is given a
    string; for any other value it fails before any request is made (a
    node as [url] is not modelled further).  [items[0]] fails on an empty
    page.  The result of the normaliser becomes the instance dictionary,
    which Python accepts only if it is a dictionary.  When the document has
    no key [type] the normaliser returned [data] itself, so [self.__data__
    = data] stores into that dictionary a reference to itself; otherwise it
    returned a fresh dictionary and [data] is stored (as [json_dict] built
    it: its property values are lists, which the normaliser never edits). *)
Definition load (st : state) : result unit * state :=
  match read_url st with
  | Raise e => (Raise e, st)
  | Ok (VStr u) =>
      let st1 := mkState (cls st) (attrs st) (fetched st ++ [u]) in
      match web (List.length (fetched st)) u with
      | Unreachable => (Raise URLError, st1)
      | Page [] => (Raise IndexError, st1)
      | Page (data :: _) =>
          match __process_microdata__ None (RDict data) with
          | Raise e => (Raise e, st1)
          | Ok (VDict d) =>
              let kept := if has_key "type" data then embed (RDict data) else VSelfDict in
              (Ok tt,
               mkState (cls st)
                 (dict_set "__loaded__" (VBool true) (dict_set "__data__" kept d))
                 (fetched st ++ [u]))
          | Ok _ => (Raise TypeError, st1)
          end
      end
  | Ok _ => (Raise AttributeError, st)
  end.

(** [self.__getattribute__(item)] at the end of [__getattr__]. *)
Definition getattribute_or_raise (st : state) (name : string) : result pyval :=
  match getattribute (cls st) (attrs st) name with
  | Some v => Ok v
  | None => Raise AttributeError
  end.

(** [MicrodataView.__getattr__], called when ordinary lookup has failed. *)
Definition __getattr__ (st : state) (name : string) : result pyval * state :=
  if negb (loaded st) then
    match load st with
    | (Raise e, st') => (Raise e, st')
    | (Ok _, st') => (getattribute_or_raise st' name, st')
    end
  else (getattribute_or_raise st name, st).

(** The attribute read [node.name]. *)
Definition getattr (st : state) (name : string) : result pyval * state :=
  match getattribute (cls st) (attrs st) name with
  | Some v => (Ok v, st)
  | None => __getattr__ st name
  end.

(** [MicrodataView.__repr__].  [self.url] is an attribute read like any
    other; [replace] exists on strings only. *)
Definition __repr__ (st : state) : result rendering * state :=
  if loaded st then (Ok (PFormat (attrs st)), st)
  else
    match getattr st "url" with
    | (Raise e, st') => (Raise e, st')
    | (Ok (VStr u), st') =>
        (Ok (Tag ("<" ++ class_name (cls st') ++ " "
                      ++ py_replace "http://www.wikitree.com/wiki/" "" u ++ ">")), st')
    | (Ok _, st') => (Raise AttributeError, st')
    end.

(** [MicrodataView.__dir__] *)
Definition __dir__ (st : state) : result pyval * state :=
  if loaded st then (Ok (VList (map VStr (keys (attrs st)))), st)
  else getattr st "__keys__".

(** A read forces materialisation when ordinary lookup does not find the
    name and the node is not loaded. *)
Definition forces_load (st : state) (name : string) : bool :=
  match getattribute (cls st) (attrs st) name with
  | Some _ => false
  | None => negb (loaded st)
  end.

(** A sequence of attribute reads, results dropped. *)
Fixpoint reads (names : list string) (st : state) : state :=
  match names with
  | [] => st
  | name :: rest => reads rest (snd (getattr st name))
  end.

End Node.

End MicrodataView.
Import MicrodataView.

(** [Person(url)] as a node with nothing requested yet. *)
Definition new_Person (url : string) : state :=
  mkState Person [("url", VStr (canonical_url url))] [].

(** ** The statements under test, as the specification words them *)

(** The always-multivalued set as the specification fixes it. *)
Definition spec_always_multivalued : list string :=
  ["parent"; "spouse"; "sibling"; "children"; "marriage"].

(** "Names in the set [names] never collapse": a one-element list under such
    a name normalises to the one-element list of the normalised element. *)
Definition never_collapses (names : list string) : Prop :=
  forall k x v,
    In k names ->
    __process_microdata__ (Some k) x = Ok v ->
    __process_microdata__ (Some k) (RList [x]) = Ok (VList [v]).

(** "Surfaced as a distinct failure rather than an index error". *)
Definition distinct_failure {A} (r : result A) : Prop :=
  exists e, r = Raise e /\ e <> IndexError.

(** An absolute URL, as the specification uses the word: a string that
    begins with a web scheme. *)
Definition spec_absolute_url (s : string) : bool :=
  String.prefix "http://" s || String.prefix "https://" s.

(** "An already-absolute URL is used as-is". *)
Definition absolute_used_as_is : Prop :=
  forall s, spec_absolute_url s = true -> Person_init (RStr s) = Ok [("url", VStr s)].

(** ** Collaborators for concrete runs *)

(** A page whose only item has one property. *)
Definition one_name_web (n : nat) (url : string) : response :=
  Page [[("name", RList [RStr "Jane Doe"])]].

(** A page without microdata. *)
Definition empty_web (n : nat) (url : string) : response := Page [].

(** Nothing found on [object]. *)
Definition no_object_attr (name : string) : option pyval := None.

(** ** Shapes of values and documents *)

(** [v] is built from strings, lists, dictionaries and nodes whose instance
    dictionary holds [url] and nothing else. *)
Fixpoint normal_form (v : pyval) : bool :=
  match v with
  | VStr _ => true
  | VList l => forallb normal_form l
  | VDict d => forallb (fun kv => normal_form (snd kv)) d
  | VNode _ d =>
      match d with
      | [(k, _)] => String.eqb k "url"
      | _ => false
      end
  | VBool _ => false
  | VNone => false
  | VMethod _ => false
  | VSelfDict => false
  end.

Definition is_text (x : raw) : bool :=
  match x with
  | RStr _ => true
  | _ => false
  end.

(** A property mapping: no property is named [type], and every value is a
    list of acceptable items. *)
Definition props_ok (item_ok : raw -> bool) (x : raw) : bool :=
  match x with
  | RDict p =>
      negb (has_key "type" p)
      && forallb (fun kv => match snd kv with
                            | RList l => forallb item_ok l
                            | _ => false
                            end) p
  | _ => false
  end.

(** The items of a document as the extraction builds them, as far as the
    normaliser depends on them.  An item is text or a dictionary.  If its
    first type is mapped, its properties must give a [url] that starts with
    text.  If its first type is not mapped, its [properties] must be a
    property mapping.  If it has no type, its [properties] likewise, and its
    other entries (the [id]) are text. *)
Fixpoint wf_item (x : raw) : bool :=
  match x with
  | RStr _ => true
  | RList _ => false
  | RDict d =>
      match lookup "type" d with
      | Some (RList (RStr t :: _)) =>
          match lookup t __type__mapping__ with
          | Some _ =>
              match lookup "properties" d with
              | Some (RDict p) =>
                  match lookup "url" p with
                  | Some (RList (RStr _ :: _)) => true
                  | _ => false
                  end
              | _ => false
              end
          | None =>
              has_key "properties" d
              && forallb (fun kv => negb (String.eqb (fst kv) "properties")
                                    || props_ok wf_item (snd kv)) d
          end
      | Some _ => false
      | None =>
          forallb (fun kv => if String.eqb (fst kv) "properties"
                             then props_ok wf_item (snd kv)
                             else is_text (snd kv)) d
      end
  end.

(** The property mapping of a whole document. *)
Definition wf_props (p : rdict) : bool := props_ok wf_item (RDict p).

(** A page that always serves the same document. *)
Definition family_doc : rdict :=
  [("name", RList [RStr "Jane Doe"]);
   ("url", RList [RStr "http://www.wikitree.com/wiki/X-1"]);
   ("children",
    RList [RDict [("type", RList [RStr "http://schema.org/Person"]);
                  ("properties", RDict [("url", RList [RStr "/wiki/X-2"])])]]);
   ("birth",
    RList [RDict [("properties", RDict [("date", RList [RStr "1900"])])]])].

Definition family_web (n : nat) (url : string) : response := Page [family_doc].

(** A site that cannot be reached. *)
Definition down_web (n : nat) (url : string) : response := Unreachable.

(** * Properties *)

(** ** The bound on the recursion is immaterial *)

Lemma map_items_mono (f g : raw -> option (result pyval)) (l : list raw) r :
  (forall x r', In x l -> f x = Some r' -> g x = Some r') ->
  map_items f l = Some r -> map_items g l = Some r.
Proof.
  revert r; induction l as [|x rest IH]; intros r Hfg; simpl; [easy|].
  destruct (f x) as [[v|e]|] eqn:Hx; try discriminate.
  - rewrite (Hfg x (Ok v)) by (simpl; auto).
    destruct (map_items f rest) as [rr|] eqn:Hrest; try discriminate.
    rewrite (IH rr) by (intros; auto; apply Hfg; simpl; auto).
    auto.
  - rewrite (Hfg x (Raise e)) by (simpl; auto). auto.
Qed.

Lemma map_entries_mono (f g : string -> raw -> option (result pyval)) (d : rdict) r :
  (forall k x r', In (k, x) d -> f k x = Some r' -> g k x = Some r') ->
  map_entries f d = Some r -> map_entries g d = Some r.
Proof.
  revert r; induction d as [|[k x] rest IH]; intros r Hfg; simpl; [easy|].
  destruct (f k x) as [[v|e]|] eqn:Hx; try discriminate.
  - rewrite (Hfg k x (Ok v)) by (simpl; auto).
    destruct (map_entries f rest) as [rr|] eqn:Hrest; try discriminate.
    rewrite (IH rr) by (intros; auto; apply Hfg; simpl; auto).
    auto.
  - rewrite (Hfg k x (Raise e)) by (simpl; auto). auto.
Qed.

Lemma omap_some {A B} (f : A -> B) o r :
  omap f o = Some r -> exists r0, o = Some r0 /\ r = rmap f r0.
Proof. destruct o; simpl; intros H; inversion H; eauto. Qed.

(** More fuel does not change a completed call. *)
Lemma process_n_mono n : forall m key x r,
  n <= m -> process_microdata_n n key x = Some r -> process_microdata_n m key x = Some r.
Proof.
  induction n as [|n IH]; intros m key x r Hle H; [discriminate|].
  destruct m as [|m]; [lia|].
  assert (Hnm : n <= m) by lia.
  simpl in *. destruct x as [s|l|d].
  - exact H.
  - destruct (Nat.eqb (List.length l) 1 && negb (in_always_lists key)).
    + destruct l; auto.
    + apply omap_some in H as (r0 & H0 & ->).
      rewrite (map_items_mono _ (process_microdata_n m key) _ _ (fun x r' _ => IH m key x r' Hnm) H0).
      reflexivity.
  - destruct (has_key "type" d).
    + destruct (ty <- getitem (RDict d) "type";; t0 <- index0 ty;; mapped_kind t0)
        as [[k|]|e]; auto.
      destruct (props <- getitem (RDict d) "properties";; py_dict props); auto.
    + apply omap_some in H as (r0 & H0 & ->).
      rewrite (map_entries_mono _ (fun k v => process_microdata_n m (Some k) v) _ _
                 (fun k x r' _ => IH m (Some k) x r' Hnm) H0).
      reflexivity.
Qed.

Lemma height_item x l : In x l -> height x < height (RList l).
Proof.
  simpl. induction l as [|y rest IH]; simpl; [easy|].
  intros [->|Hin]; [lia|]. specialize (IH Hin). lia.
Qed.

Lemma height_entry k x (d : rdict) : In (k, x) d -> height x < height (RDict d).
Proof.
  simpl. induction d as [|[k' y] rest IH]; simpl; [easy|].
  intros [Heq|Hin]; [inversion Heq; subst; lia|]. specialize (IH Hin). lia.
Qed.

Lemma lookup_In {V} k (d : list (string * V)) v : lookup k d = Some v -> In (k, v) d.
Proof.
  induction d as [|[k' v'] rest IH]; simpl; [discriminate|].
  destruct (String.eqb k k') eqn:E.
  - apply String.eqb_eq in E. intros H; inversion H; subst; auto.
  - auto.
Qed.

Lemma height_pos x : 1 <= height x.
Proof. destruct x; simpl; lia. Qed.

Lemma height_dict_set k v (d : rdict) b :
  height v <= b -> height (RDict d) <= S b -> height (RDict (dict_set k v d)) <= S b.
Proof.
  simpl. induction d as [|[k' v'] rest IH]; simpl; intros Hv Hd.
  - lia.
  - destruct (String.eqb k k'); simpl.
    + lia.
    + assert (S (fold_right (fun kv m => Nat.max (height (snd kv)) m) 0 (dict_set k v rest)) <= S b)
        by (apply IH; lia).
      lia.
Qed.

Lemma pair_of_height e kv : pair_of e = Ok kv -> height (snd kv) < S (height e).
Proof.
  destruct e as [s|l|d]; simpl.
  - destruct s as [|a [|b [|c s]]]; intros H; inversion H; subst; simpl; lia.
  - intros H. destruct l as [|x [|y [|z l]]]; try destruct x; try discriminate.
    inversion H; subst. cbn [snd height fold_right]. lia.
  - destruct d as [|[k1 x] [|[k2 y] [|z d]]]; intros H; inversion H; subst; simpl; lia.
Qed.

Lemma dict_of_pairs_height l : forall acc c b,
  dict_of_pairs acc l = Ok c ->
  height (RDict acc) <= S b -> height (RList l) <= S b ->
  height (RDict c) <= S b.
Proof.
  induction l as [|e rest IH]; intros acc c b H Hacc Hl.
  - simpl in H. inversion H; subst; auto.
  - cbn [dict_of_pairs] in H.
    destruct (pair_of e) as [kv|] eqn:Hp; simpl in H; [|discriminate].
    apply pair_of_height in Hp.
    assert (He : height e <= b) by (simpl in Hl; lia).
    apply (IH _ _ b H).
    + apply height_dict_set; auto; lia.
    + simpl in *; lia.
Qed.

(** [dict(x)] is no deeper than [x]. *)
Lemma py_dict_height x c : py_dict x = Ok c -> height (RDict c) <= height x.
Proof.
  destruct x as [s|l|d]; simpl py_dict.
  - destruct s; intros H; inversion H; simpl; lia.
  - intros H.
    apply (dict_of_pairs_height l [] c (fold_right (fun e m => Nat.max (height e) m) 0 l)) in H;
      simpl in *; auto; lia.
  - intros H; inversion H; subst; auto.
Qed.

Lemma map_items_total (f : raw -> option (result pyval)) l :
  (forall x, In x l -> exists r, f x = Some r) -> exists r, map_items f l = Some r.
Proof.
  induction l as [|x rest IH]; intros Hf; simpl; [eauto|].
  destruct (Hf x) as [[v|e] ->]; simpl; eauto.
  destruct IH as [[vs|e] ->]; eauto. intros; apply Hf; simpl; auto.
Qed.

Lemma map_entries_total (f : string -> raw -> option (result pyval)) (d : rdict) :
  (forall k x, In (k, x) d -> exists r, f k x = Some r) -> exists r, map_entries f d = Some r.
Proof.
  induction d as [|[k x] rest IH]; intros Hf; simpl; [eauto|].
  destruct (Hf k x) as [[v|e] ->]; simpl; eauto.
  destruct IH as [[vs|e] ->]; eauto. intros; apply Hf; simpl; auto.
Qed.

(** Fuel equal to the height of the document is enough. *)
Lemma process_n_enough n : forall key x,
  height x <= n -> exists r, process_microdata_n n key x = Some r.
Proof.
  induction n as [|n IH]; intros key x Hh.
  - pose proof (height_pos x). lia.
  - simpl. destruct x as [s|l|d].
    + destruct key; [eauto|]. destruct (contains "type" s); eauto.
    + destruct (Nat.eqb (List.length l) 1 && negb (in_always_lists key)).
      * destruct l as [|x rest]; [eauto|].
        apply IH. pose proof (height_item x (x :: rest) (or_introl eq_refl)). lia.
      * destruct (map_items_total (process_microdata_n n key) l) as [r ->]; simpl; eauto.
        intros x Hin. apply IH. pose proof (height_item x l Hin). lia.
    + destruct (has_key "type" d).
      * destruct (ty <- getitem (RDict d) "type";; t0 <- index0 ty;; mapped_kind t0)
          as [[k|]|e]; eauto.
        destruct (getitem (RDict d) "properties") as [props|e] eqn:Hg; simpl; eauto.
        destruct (py_dict props) as [c|e] eqn:Hc; eauto.
        apply IH. apply py_dict_height in Hc.
        simpl in Hg. destruct (lookup "properties" d) as [v|] eqn:Hl; inversion Hg; subst.
        apply lookup_In in Hl. pose proof (height_entry _ _ _ Hl). lia.
      * destruct (map_entries_total (fun k v => process_microdata_n n (Some k) v) d) as [r ->];
          simpl; eauto.
        intros k x Hin. apply IH. pose proof (height_entry k x d Hin). lia.
Qed.

(** Any completed bounded call gives the result of [__process_microdata__]. *)
Lemma process_fuel n key x r : process_microdata_n n key x = Some r -> __process_microdata__ key x = r.
Proof.
  intros H. unfold __process_microdata__.
  destruct (process_n_enough (height x) key x (le_n _)) as [r' Hr']. rewrite Hr'.
  pose proof (process_n_mono _ (Nat.max n (height x)) _ _ _ (Nat.le_max_l _ _) H) as H1.
  pose proof (process_n_mono _ (Nat.max n (height x)) _ _ _ (Nat.le_max_r _ _) Hr') as H2.
  congruence.
Qed.

Lemma process_n_spec n key x : height x <= n -> process_microdata_n n key x = Some (__process_microdata__ key x).
Proof.
  intros Hh. destruct (process_n_enough n key x Hh) as [r Hr].
  rewrite Hr. f_equal. symmetry. eapply process_fuel; eauto.
Qed.

Lemma map_items_spec (fn : raw -> option (result pyval)) (f : raw -> result pyval) l :
  (forall x, In x l -> fn x = Some (f x)) -> map_items fn l = Some (map_result f l).
Proof.
  induction l as [|x rest IH]; intros H; simpl; [reflexivity|].
  rewrite (H x) by (simpl; auto). destruct (f x) as [v|e]; simpl; [|reflexivity].
  rewrite IH by (intros; apply H; simpl; auto).
  destruct (map_result f rest); reflexivity.
Qed.

Lemma map_entries_spec (fn : string -> raw -> option (result pyval))
      (f : string -> raw -> result pyval) (d : rdict) :
  (forall k x, In (k, x) d -> fn k x = Some (f k x)) ->
  map_entries fn d = Some (map_values f d).
Proof.
  induction d as [|[k x] rest IH]; intros H; simpl; [reflexivity|].
  rewrite (H k x) by (simpl; auto). destruct (f k x) as [v|e]; simpl; [|reflexivity].
  rewrite IH by (intros; apply H; simpl; auto).
  destruct (map_values f rest); reflexivity.
Qed.

(** [__process_microdata__] satisfies the recursive equation of the source. *)
Lemma process_unfold key data : __process_microdata__ key data = process_microdata_body key data.
Proof.
  apply (process_fuel (S (height data))).
  destruct data as [s|l|d]; cbn [process_microdata_n process_microdata_body].
  - destruct key; [reflexivity|]. destruct (contains "type" s); reflexivity.
  - destruct (Nat.eqb (List.length l) 1 && negb (in_always_lists key)).
    + destruct l as [|x rest]; [reflexivity|].
      apply process_n_spec.
      pose proof (height_item x (x :: rest) (or_introl eq_refl)). lia.
    + rewrite (map_items_spec _ (__process_microdata__ key)); [reflexivity|].
      intros x Hin. apply process_n_spec. pose proof (height_item x l Hin). lia.
  - destruct (has_key "type" d).
    + destruct (ty <- getitem (RDict d) "type";; t0 <- index0 ty;; mapped_kind t0)
        as [[k|]|e]; cbn [rbind]; try reflexivity.
      destruct (getitem (RDict d) "properties") as [props|e] eqn:Hg; cbn [rbind]; [|reflexivity].
      destruct (py_dict props) as [c|e] eqn:Hc; cbn [rbind]; [|reflexivity].
      apply process_n_spec. apply py_dict_height in Hc.
      simpl in Hg. destruct (lookup "properties" d) as [v|] eqn:Hl; inversion Hg; subst.
      apply lookup_In in Hl. pose proof (height_entry _ _ _ Hl). lia.
    + rewrite (map_entries_spec _ (fun k v => __process_microdata__ (Some k) v)); [reflexivity|].
      intros k x Hin. apply process_n_spec. pose proof (height_entry k x d Hin). lia.
Qed.

(** ** The normaliser *)

Lemma process_singleton key x :
  __process_microdata__ key (RList [x]) =
  if in_always_lists key then rmap (fun v => VList [v]) (__process_microdata__ key x)
  else __process_microdata__ key x.
Proof.
  rewrite process_unfold. cbn [process_microdata_body List.length Nat.eqb andb].
  destruct (in_always_lists key); cbn [negb map_result]; [|reflexivity].
  destruct (__process_microdata__ key x); reflexivity.
Qed.

Lemma process_list key l :
  List.length l <> 1 \/ in_always_lists key = true ->
  __process_microdata__ key (RList l) = rmap VList (map_result (__process_microdata__ key) l).
Proof.
  intros H. rewrite process_unfold. cbn [process_microdata_body].
  destruct (Nat.eqb (List.length l) 1) eqn:E; cbn [andb]; [|reflexivity].
  apply Nat.eqb_eq in E. destruct H as [H | ->]; [contradiction|reflexivity].
Qed.

Lemma map_result_Ok (f : raw -> result pyval) l vs :
  map_result f l = Ok vs <-> Forall2 (fun x v => f x = Ok v) l vs.
Proof.
  revert vs; induction l as [|x rest IH]; intros vs; simpl.
  - split; intros H; inversion H; subst; auto.
  - split.
    + destruct (f x) as [v|e] eqn:Hx; simpl; [|discriminate].
      destruct (map_result f rest) as [ws|e] eqn:Hr; simpl; [|discriminate].
      intros H; inversion H; subst. constructor; auto. apply IH; reflexivity.
    + intros H; inversion H as [|? v ? ws Hx Hrest]; subst.
      rewrite Hx. simpl. apply IH in Hrest. rewrite Hrest. reflexivity.
Qed.

(** C1, as amended.  A one-element list under a key of [__always_lists__]
    (spouse, parent, marriage, children) normalises to the one-element list
    of its normalised element, an exception of the element passing through;
    under every other key, the absent key included, it normalises to exactly
    what its element normalises to. *)
Theorem C1_singleton_law (key : option string) (x : raw) :
  __process_microdata__ key (RList [x]) =
    (if in_always_lists key then rmap (fun v => VList [v]) (__process_microdata__ key x)
     else __process_microdata__ key x)
  /\ in_always_lists key =
     match key with
     | Some k => existsb (String.eqb k) ["spouse"; "parent"; "marriage"; "children"]
     | None => false
     end.
Proof. split; [apply process_singleton | reflexivity]. Qed.

(** C1 as the specification states it fails: [sibling] is in the
    specification's set, and a one-element [sibling] list collapses. *)
Lemma C1_sibling_collapses :
  In "sibling" spec_always_multivalued
  /\ __process_microdata__ (Some "sibling") (RList [RStr "Ann"]) = Ok (VStr "Ann")
  /\ ~ never_collapses spec_always_multivalued.
Proof.
  split; [simpl; tauto|]. split; [reflexivity|].
  intros H. specialize (H "sibling" (RStr "Ann") (VStr "Ann")).
  assert (Hc : __process_microdata__ (Some "sibling") (RList [RStr "Ann"]) = Ok (VList [VStr "Ann"])).
  { apply H; [simpl; tauto | reflexivity]. }
  vm_compute in Hc. discriminate.
Qed.

(** C7.  A list whose length is not one, or any list under a key of
    [__always_lists__], is normalised element by element under the same key,
    left to right: the result is the list of the normalised elements, of the
    same length and in the same order, whenever every element normalises;
    and the empty list normalises to the empty list. *)
Theorem C7_elementwise (key : option string) (l : list raw)
    (Hshape : List.length l <> 1 \/ in_always_lists key = true) :
  __process_microdata__ key (RList l) = rmap VList (map_result (__process_microdata__ key) l)
  /\ (forall vs, Forall2 (fun x v => __process_microdata__ key x = Ok v) l vs ->
                __process_microdata__ key (RList l) = Ok (VList vs))
  /\ (forall r, __process_microdata__ key (RList l) = Ok r ->
               exists vs, r = VList vs
                          /\ List.length vs = List.length l
                          /\ Forall2 (fun x v => __process_microdata__ key x = Ok v) l vs)
  /\ __process_microdata__ key (RList []) = Ok (VList []).
Proof.
  pose proof (process_list key l Hshape) as E.
  split; [exact E|]. split; [|split].
  - intros vs Hvs. rewrite E. apply map_result_Ok in Hvs. rewrite Hvs. reflexivity.
  - intros r Hr. rewrite E in Hr.
    destruct (map_result (__process_microdata__ key) l) as [vs|e] eqn:Hm; simpl in Hr; [|discriminate].
    inversion Hr; subst. exists vs. apply map_result_Ok in Hm.
    split; [reflexivity|]. split; [|exact Hm].
    symmetry. eapply Forall2_length; eauto.
  - rewrite process_list by (left; simpl; lia). reflexivity.
Qed.

Lemma C7_elementwise_witness :
  (List.length [RStr "a"; RStr "b"] <> 1 \/ in_always_lists (Some "name") = true)
  /\ __process_microdata__ (Some "name") (RList [RStr "a"; RStr "b"]) = Ok (VList [VStr "a"; VStr "b"]).
Proof.
  assert (H : List.length [RStr "a"; RStr "b"] <> 1 \/ in_always_lists (Some "name") = true)
    by (left; simpl; lia).
  split; [exact H|].
  apply (proj1 (proj2 (C7_elementwise (Some "name") [RStr "a"; RStr "b"] H))).
  repeat constructor.
Defined.

(** ** Construction *)

Lemma Person_init_str (s : string) :
  Person_init (RStr s) = Ok [("url", VStr (canonical_url s))].
Proof.
  unfold Person_init, canonical_url. cbn [str_in].
  destruct (contains "http://" s); [reflexivity|].
  destruct (contains "/wiki" s); reflexivity.
Qed.

Lemma canonical_url_profile (s : string) :
  canonical_url ("http://www.wikitree.com/wiki/" ++ s) = "http://www.wikitree.com/wiki/" ++ s.
Proof. reflexivity. Qed.

Lemma canonical_url_path (s : string) :
  contains "http://" s = false ->
  canonical_url ("/wiki/" ++ s) = "http://www.wikitree.com/wiki/" ++ s.
Proof.
  intros H. unfold canonical_url.
  change (contains "http://" ("/wiki/" ++ s)) with (contains "http://" s).
  rewrite H. reflexivity.
Qed.

Lemma canonical_url_bare (s : string) :
  contains "http://" s = false -> contains "/wiki" s = false ->
  canonical_url s = "http://www.wikitree.com/wiki/" ++ s.
Proof. intros H1 H2. unfold canonical_url. rewrite H1, H2. reflexivity. Qed.

(** C5, as amended.  [Person(s)] succeeds for every string [s], and its
    [url] follows the three-way rule as the code tests it: [s] itself when
    [s] contains [http://]; the site origin followed by [s] when it does not
    but contains [/wiki]; the profile template followed by [s] otherwise.
    Hence for an identifier [s] that contains neither marker, the [http://]
    profile URL, the site-relative path and the bare identifier of the same
    profile give the same [url]. *)
Theorem C5_construct (s : string) :
  Person_init (RStr s) =
    Ok [("url", VStr (if contains "http://" s then s
                      else if contains "/wiki" s then "http://www.wikitree.com" ++ s
                      else "http://www.wikitree.com/wiki/" ++ s))]
  /\ (contains "http://" s = false -> contains "/wiki" s = false ->
      Person_init (RStr s) = Ok [("url", VStr ("http://www.wikitree.com/wiki/" ++ s))]
      /\ Person_init (RStr ("/wiki/" ++ s)) = Person_init (RStr s)
      /\ Person_init (RStr ("http://www.wikitree.com/wiki/" ++ s)) = Person_init (RStr s)).
Proof.
  split; [apply Person_init_str|].
  intros H1 H2. rewrite !Person_init_str.
  rewrite canonical_url_profile, (canonical_url_path s H1), (canonical_url_bare s H1 H2).
  auto.
Qed.

Lemma C5_construct_witness :
  contains "http://" "Sloan-518" = false /\ contains "/wiki" "Sloan-518" = false
  /\ Person_init (RStr "/wiki/Sloan-518") = Person_init (RStr "Sloan-518")
  /\ Person_init (RStr "http://www.wikitree.com/wiki/Sloan-518") = Person_init (RStr "Sloan-518").
Proof.
  split; [reflexivity|]. split; [reflexivity|].
  exact (proj2 (proj2 (C5_construct "Sloan-518") eq_refl eq_refl)).
Defined.

(** C5 as the specification states it fails: an absolute URL with the scheme
    [https://] does not contain [http://]; it contains [/wiki], so the site
    origin is put in front of it, and the node it gives is not the node of
    the bare identifier of the same profile. *)
Lemma C5_https_prefixed :
  spec_absolute_url "https://www.wikitree.com/wiki/X" = true
  /\ Person_init (RStr "https://www.wikitree.com/wiki/X")
     = Ok [("url", VStr "http://www.wikitree.comhttps://www.wikitree.com/wiki/X")]
  /\ Person_init (RStr "https://www.wikitree.com/wiki/X") <> Person_init (RStr "X")
  /\ ~ absolute_used_as_is.
Proof.
  split; [reflexivity|]. split; [reflexivity|]. split.
  - vm_compute. discriminate.
  - intros H. specialize (H "https://www.wikitree.com/wiki/X" eq_refl).
    vm_compute in H. discriminate.
Qed.

(** ** Bags *)

Lemma process_untagged key (d : rdict) :
  has_key "type" d = false ->
  __process_microdata__ key (RDict d) = rmap VDict (map_values (fun k v => __process_microdata__ (Some k) v) d).
Proof. intros H. rewrite process_unfold. cbn [process_microdata_body]. rewrite H. reflexivity. Qed.

Lemma process_unmapped key (d : rdict) ty tys props :
  lookup "type" d = Some (RList (RStr ty :: tys)) ->
  lookup ty __type__mapping__ = None ->
  lookup "properties" d = Some (RDict props) ->
  __process_microdata__ key (RDict d) = __process_microdata__ key (RDict props).
Proof.
  intros Ht Hm Hp. rewrite process_unfold. cbn [process_microdata_body getitem].
  unfold has_key. rewrite Ht, Hp. cbn [rbind index0 mapped_kind]. rewrite Hm.
  reflexivity.
Qed.

(** C3.  A bag whose first type tag is a key of [__type__mapping__] and whose
    [url] property starts with a string normalises, under every key, to a new
    node of the mapped kind whose instance dictionary holds the canonical
    [url] and nothing else: no other property of the bag is looked at, and the
    node is unloaded.  [__process_microdata__] is a function of its arguments alone; it
    has no access to the network. *)
Theorem C3_typed_reference (key : option string) (d : rdict)
    (ty : string) (tys : list raw) (k : kind)
    (props : rdict) (u : string) (urls : list raw)
    (Htype : lookup "type" d = Some (RList (RStr ty :: tys)))
    (Hmapped : lookup ty __type__mapping__ = Some k)
    (Hprops : lookup "properties" d = Some (RDict props))
    (Hurl : lookup "url" props = Some (RList (RStr u :: urls))) :
  __process_microdata__ key (RDict d) = Ok (VNode k [("url", VStr (canonical_url u))])
  /\ forall object_attr log,
       loaded object_attr (mkState k [("url", VStr (canonical_url u))] log) = false.
Proof.
  split.
  - rewrite process_unfold. cbn [process_microdata_body getitem].
    unfold has_key. rewrite Htype, Hprops. cbn [rbind index0 mapped_kind].
    rewrite Hmapped. cbn [rbind getitem]. rewrite Hurl. cbn [rbind index0].
    destruct k. unfold construct. rewrite Person_init_str. reflexivity.
  - intros object_attr log. reflexivity.
Qed.

Lemma C3_typed_reference_witness :
  __process_microdata__ (Some "children")
    (RDict [("type", RList [RStr "http://schema.org/Person"]);
            ("properties", RDict [("name", RList [RStr "Ann"]);
                                  ("url", RList [RStr "/wiki/X-2"])])])
  = Ok (VNode Person [("url", VStr "http://www.wikitree.com/wiki/X-2")]).
Proof.
  exact (proj1 (C3_typed_reference (Some "children")
                  [("type", RList [RStr "http://schema.org/Person"]);
                   ("properties", RDict [("name", RList [RStr "Ann"]);
                                         ("url", RList [RStr "/wiki/X-2"])])]
                  "http://schema.org/Person" [] Person
                  [("name", RList [RStr "Ann"]); ("url", RList [RStr "/wiki/X-2"])]
                  "/wiki/X-2" [] eq_refl eq_refl eq_refl eq_refl)).
Defined.

(** C8, where the code departs from it.  A bag tagged with an unmapped type
    is normalised by normalising a copy of its property mapping, and that
    call tests the mapping for a key [type] as if it were a bag: a property
    named [type] is taken for a type tag.  With such a property the result is
    a [KeyError] instead of the plain mapping, which the same bag without
    that property gets; and when the property mapping also has a
    dictionary-valued key [properties], the result can be a constructed
    node. *)
Theorem C8_property_named_type :
  __process_microdata__ (Some "birthPlace")
    (RDict [("type", RList [RStr "http://schema.org/Place"]);
            ("properties", RDict [("type", RList [RStr "city"]);
                                  ("name", RList [RStr "Paris"])])])
  = Raise KeyError
  /\ __process_microdata__ (Some "birthPlace")
       (RDict [("type", RList [RStr "http://schema.org/Place"]);
               ("properties", RDict [("name", RList [RStr "Paris"])])])
     = Ok (VDict [("name", VStr "Paris")])
  /\ __process_microdata__ (Some "birthPlace")
       (RDict [("type", RList [RStr "http://schema.org/Place"]);
               ("properties",
                RDict [("type", RList [RStr "http://schema.org/Person"]);
                       ("properties", RDict [("url", RList [RStr "X-2"])])])])
     = Ok (VNode Person [("url", VStr "http://www.wikitree.com/wiki/X-2")]).
Proof. repeat split; reflexivity. Qed.

(** ** Dictionaries and strings *)

Lemma lookup_dict_set_same {V} k (v : V) d : lookup k (dict_set k v d) = Some v.
Proof.
  induction d as [|[k' v'] rest IH]; simpl.
  - rewrite String.eqb_refl. reflexivity.
  - destruct (String.eqb k k') eqn:E; simpl; rewrite E; auto.
Qed.

Lemma lookup_dict_set_other {V} k k' (v : V) d :
  k <> k' -> lookup k (dict_set k' v d) = lookup k d.
Proof.
  intros Hne. induction d as [|[k2 v2] rest IH]; simpl.
  - apply String.eqb_neq in Hne. rewrite Hne. reflexivity.
  - destruct (String.eqb k' k2) eqn:E; simpl.
    + apply String.eqb_eq in E; subst k2.
      apply String.eqb_neq in Hne. rewrite Hne. reflexivity.
    + destruct (String.eqb k k2); auto.
Qed.

(** The loop over the entries keeps every key and replaces its value. *)
Lemma map_values_lookup (f : string -> raw -> result pyval) (d : rdict) d' k :
  map_values f d = Ok d' ->
  match lookup k d with
  | None => lookup k d' = None
  | Some x => exists v, f k x = Ok v /\ lookup k d' = Some v
  end.
Proof.
  revert d'; induction d as [|[k0 x0] rest IH]; intros d' H; simpl in *.
  - inversion H; reflexivity.
  - destruct (f k0 x0) as [v0|e] eqn:Hx; simpl in H; [|discriminate].
    destruct (map_values f rest) as [vs|e] eqn:Hr; simpl in H; [|discriminate].
    inversion H; subst d'. simpl.
    destruct (String.eqb k k0) eqn:E.
    + apply String.eqb_eq in E; subst. eauto.
    + apply IH. reflexivity.
Qed.

Lemma prefix_app_l a b s : String.prefix (a ++ b) s = true -> String.prefix a s = true.
Proof.
  revert s; induction a as [|c a IH]; intros s H.
  - destruct s; reflexivity.
  - destruct s as [|c' s]; [discriminate|].
    cbn [append String.prefix] in *.
    destruct (Ascii.ascii_dec c c'); [apply IH; exact H|discriminate].
Qed.

Lemma contains_step sub c s :
  contains sub (String c s) = String.prefix sub (String c s) || contains sub s.
Proof. reflexivity. Qed.

Lemma contains_empty sub : contains sub "" = String.prefix sub "" || false.
Proof. reflexivity. Qed.

Lemma contains_app_l a b s : contains a s = false -> contains (a ++ b) s = false.
Proof.
  assert (Hp : forall t, String.prefix a t = false -> String.prefix (a ++ b) t = false).
  { intros t Ht. destruct (String.prefix (a ++ b) t) eqn:E; [|reflexivity].
    apply prefix_app_l in E. congruence. }
  induction s as [|c s IH]; intros H.
  - rewrite contains_empty in *. apply orb_false_iff in H as [H1 _].
    rewrite (Hp _ H1). reflexivity.
  - rewrite contains_step in *. apply orb_false_iff in H as [H1 H2].
    rewrite (Hp _ H1), (IH H2). reflexivity.
Qed.

Lemma replace_from_step old new c s :
  replace_from old new 0 (String c s) =
  if String.prefix old (String c s)
  then new ++ replace_from old new (String.length old - 1) s
  else String c (replace_from old new 0 s).
Proof. reflexivity. Qed.

Lemma replace_absent old new s : contains old s = false -> replace_from old new 0 s = s.
Proof.
  induction s as [|c s IH]; intros H; [reflexivity|].
  rewrite contains_step in H. apply orb_false_iff in H as [Hp Hc].
  rewrite replace_from_step, Hp, (IH Hc). reflexivity.
Qed.

Lemma prefix_nil s : String.prefix "" s = true.
Proof. destruct s; reflexivity. Qed.

(** The tag shows the identifier of a profile URL. *)
Lemma py_replace_profile s :
  contains "http://" s = false ->
  py_replace "http://www.wikitree.com/wiki/" "" ("http://www.wikitree.com/wiki/" ++ s) = s.
Proof.
  intros H. unfold py_replace. cbn. rewrite prefix_nil.
  apply replace_absent.
  apply (contains_app_l "http://" "www.wikitree.com/wiki/"). exact H.
Qed.

(** ** The loading protocol *)

Section Protocol.

Variable web : nat -> string -> response.
Variable object_attr : string -> option pyval.

#[local] Abbreviation loaded := (MicrodataView.loaded object_attr).
#[local] Abbreviation read_url := (MicrodataView.read_url object_attr).
#[local] Abbreviation load := (MicrodataView.load web object_attr).
#[local] Abbreviation getattr := (MicrodataView.getattr web object_attr).
#[local] Abbreviation getattribute := (MicrodataView.getattribute object_attr).
#[local] Abbreviation getattribute_or_raise := (MicrodataView.getattribute_or_raise object_attr).
#[local] Abbreviation forces_load := (MicrodataView.forces_load object_attr).
#[local] Abbreviation reads := (MicrodataView.reads web object_attr).
#[local] Abbreviation __repr__ := (MicrodataView.__repr__ web object_attr).
#[local] Abbreviation __dir__ := (MicrodataView.__dir__ web object_attr).

(** Whether a node is loaded depends on its class and dictionary only. *)
Lemma loaded_ext st st' :
  cls st' = cls st -> attrs st' = attrs st -> loaded st' = loaded st.
Proof. intros Hc Ha. unfold MicrodataView.loaded. rewrite Hc, Ha. reflexivity. Qed.

Lemma read_url_ext st st' :
  cls st' = cls st -> attrs st' = attrs st -> read_url st' = read_url st.
Proof.
  intros Hc Ha. unfold MicrodataView.read_url.
  rewrite (loaded_ext _ _ Hc Ha), Hc, Ha. reflexivity.
Qed.

(** A failed [load] leaves the object as it was; at most the log grows. *)
Lemma load_Raise st e st' :
  load st = (Raise e, st') ->
  cls st' = cls st /\ attrs st' = attrs st
  /\ (fetched st' = fetched st
      \/ exists u, read_url st = Ok (VStr u) /\ fetched st' = (fetched st ++ [u])%list).
Proof.
  unfold MicrodataView.load.
  destruct (read_url st) as [v|e0]; [|intros H; inversion H; subst; auto].
  destruct v; try (intros H; inversion H; subst; auto; fail).
  destruct (web _ s) as [|[|data items]];
    try (intros H; inversion H; subst; simpl; eauto 6; fail).
  destruct (__process_microdata__ None (RDict data)) as [[]|e1];
    intros H; inversion H; subst; simpl; eauto 6.
Qed.

(** What a successful [load] has done. *)
Lemma load_Ok st st' :
  load st = (Ok tt, st') ->
  exists u data items d,
    read_url st = Ok (VStr u)
    /\ web (List.length (fetched st)) u = Page (data :: items)
    /\ __process_microdata__ None (RDict data) = Ok (VDict d)
    /\ st' = mkState (cls st)
               (dict_set "__loaded__" (VBool true)
                  (dict_set "__data__"
                     (if has_key "type" data then embed (RDict data) else VSelfDict) d))
               (fetched st ++ [u]).
Proof.
  unfold MicrodataView.load.
  destruct (read_url st) as [v|e0]; [|discriminate].
  destruct v; try discriminate.
  destruct (web _ s) as [|[|data items]] eqn:Hw; try discriminate.
  destruct (__process_microdata__ None (RDict data)) as [[]|e1] eqn:Hp; try discriminate.
  intros H; inversion H; subst. exists s, data, items, d. auto.
Qed.

Lemma load_Ok_loaded st st' : load st = (Ok tt, st') -> loaded st' = true.
Proof.
  intros H. apply load_Ok in H as (u & data & items & d & _ & _ & _ & ->).
  unfold MicrodataView.loaded, MicrodataView.getattribute. cbn [cls attrs].
  rewrite lookup_dict_set_same. reflexivity.
Qed.

(** Every [load] that got as far as [urlopen] logged exactly one request. *)
Lemma load_fetched st u :
  read_url st = Ok (VStr u) -> fetched (snd (load st)) = (fetched st ++ [u])%list.
Proof.
  intros Hu. unfold MicrodataView.load. rewrite Hu.
  destruct (web _ u) as [|[|data items]]; try reflexivity.
  destruct (__process_microdata__ None (RDict data)) as [[]|e1]; reflexivity.
Qed.

Lemma load_stays_loaded st : loaded st = true -> loaded (snd (load st)) = true.
Proof.
  intros Hl. destruct (load st) as [[[]|e] st'] eqn:H; cbn [snd].
  - eapply load_Ok_loaded; eauto.
  - apply load_Raise in H as (Hc & Ha & _). rewrite (loaded_ext _ _ Hc Ha). exact Hl.
Qed.

(** A read that does not force a load is answered from the object alone. *)
Lemma getattr_cached st name :
  forces_load st name = false ->
  getattr st name = (getattribute_or_raise st name, st).
Proof.
  unfold MicrodataView.forces_load, MicrodataView.getattr, MicrodataView.__getattr__,
    MicrodataView.getattribute_or_raise.
  destruct (getattribute (cls st) (attrs st) name) as [v|]; [reflexivity|].
  intros H. rewrite H. reflexivity.
Qed.

Lemma loaded_no_force st name : loaded st = true -> forces_load st name = false.
Proof.
  intros H. unfold MicrodataView.forces_load.
  destruct (getattribute (cls st) (attrs st) name); [reflexivity|].
  rewrite H. reflexivity.
Qed.

Lemma reads_loaded names : forall st, loaded st = true -> reads names st = st.
Proof.
  induction names as [|name rest IH]; intros st H; simpl; [reflexivity|].
  rewrite (getattr_cached st name (loaded_no_force st name H)). cbn [snd]. auto.
Qed.

(** A read that forces a load is [load] followed by ordinary lookup. *)
Lemma getattr_forced st name :
  forces_load st name = true ->
  getattr st name =
    match load st with
    | (Raise e, st') => (Raise e, st')
    | (Ok _, st') => (getattribute_or_raise st' name, st')
    end.
Proof.
  unfold MicrodataView.forces_load, MicrodataView.getattr, MicrodataView.__getattr__.
  destruct (getattribute (cls st) (attrs st) name) as [v|]; [discriminate|].
  intros H. rewrite H. reflexivity.
Qed.

(** C2.  On a loaded node every attribute read is answered by ordinary
    lookup in the object and changes neither the object nor the log of
    requests; the node stays loaded under any sequence of reads, under
    [__repr__] and [__dir__], and under an explicit [load].  A read that does
    not force a load never fetches.  A read that forces a load and returns
    has issued exactly one request and left the node loaded, so that no
    later read issues another. *)
Theorem C2_single_load (st : state) (name : string) :
  (loaded st = true ->
     getattr st name = (getattribute_or_raise st name, st)
     /\ (forall names, reads names st = st)
     /\ loaded (snd (load st)) = true
     /\ snd (__repr__ st) = st /\ snd (__dir__ st) = st)
  /\ (forces_load st name = false ->
      getattr st name = (getattribute_or_raise st name, st))
  /\ (forces_load st name = true ->
      forall v st', getattr st name = (Ok v, st') ->
        loaded st' = true
        /\ (exists u, fetched st' = (fetched st ++ [u])%list)
        /\ (forall names, reads names st' = st')).
Proof.
  split; [|split].
  - intros Hl. split; [|split; [|split; [|split]]].
    + apply getattr_cached, loaded_no_force, Hl.
    + intros names. apply reads_loaded, Hl.
    + apply load_stays_loaded, Hl.
    + unfold MicrodataView.__repr__. rewrite Hl. reflexivity.
    + unfold MicrodataView.__dir__. rewrite Hl. reflexivity.
  - apply getattr_cached.
  - intros Hf v st' Hg. rewrite (getattr_forced _ _ Hf) in Hg.
    destruct (load st) as [[[]|e] st1] eqn:Hload; inversion Hg; subst st1.
    pose proof (load_Ok_loaded _ _ Hload) as Hl.
    split; [exact Hl|]. split; [|intros names; apply reads_loaded, Hl].
    apply load_Ok in Hload as (u & data & items & d & _ & _ & _ & ->).
    exists u. reflexivity.
Qed.

(** C4, as amended.  When the page has no microdata item, [load] fails at
    [items[0]] with [IndexError], after the request and before the object is
    touched; the attribute read that forced the load fails the same way. *)
Theorem C4_empty_page (st : state) (u : string)
    (Hurl : read_url st = Ok (VStr u))
    (Hempty : web (List.length (fetched st)) u = Page []) :
  load st = (Raise IndexError, mkState (cls st) (attrs st) (fetched st ++ [u]))
  /\ forall name, forces_load st name = true ->
       getattr st name = (Raise IndexError, mkState (cls st) (attrs st) (fetched st ++ [u])).
Proof.
  assert (H : load st = (Raise IndexError, mkState (cls st) (attrs st) (fetched st ++ [u]))).
  { unfold MicrodataView.load. rewrite Hurl, Hempty. reflexivity. }
  split; [exact H|].
  intros name Hf. rewrite (getattr_forced _ _ Hf), H. reflexivity.
Qed.

(** C6.  Whatever makes [load] fail on an unloaded node (the transport, an
    empty page, an exception of the normaliser, a result that is not a
    dictionary), the object is as before: same class, same dictionary, still
    unloaded.  Every later read that forces a load runs [load] afresh, and
    when the node's [url] is a string this issues a new request. *)
Theorem C6_failed_load (st st' : state) (e : exn)
    (Hunloaded : loaded st = false)
    (Hfail : load st = (Raise e, st')) :
  cls st' = cls st /\ attrs st' = attrs st /\ loaded st' = false
  /\ forall name, forces_load st name = true ->
       forces_load st' name = true
       /\ getattr st' name =
            match load st' with
            | (Raise e', st'') => (Raise e', st'')
            | (Ok _, st'') => (getattribute_or_raise st'' name, st'')
            end
       /\ forall u, read_url st = Ok (VStr u) ->
            fetched (snd (getattr st' name)) = (fetched st' ++ [u])%list.
Proof.
  apply load_Raise in Hfail as (Hc & Ha & _).
  pose proof (loaded_ext _ _ Hc Ha) as Hl.
  split; [exact Hc|]. split; [exact Ha|]. split; [congruence|].
  intros name Hf.
  assert (Hf' : forces_load st' name = true).
  { unfold MicrodataView.forces_load in *. rewrite Hc, Ha, Hl. exact Hf. }
  split; [exact Hf'|]. split; [apply getattr_forced, Hf'|].
  intros u Hu. rewrite (getattr_forced _ _ Hf').
  rewrite <- (read_url_ext _ _ Hc Ha) in Hu.
  pose proof (load_fetched _ _ Hu) as Hlog.
  destruct (load st') as [[[]|e'] st'']; exact Hlog.
Qed.

(** C9.  On a node as [Person(s)] builds it, with any requests already in
    the log, [__repr__] and [__dir__] return without loading: the node and
    the log are unchanged and the node is still unloaded.  [__repr__] gives
    the class name and the [url] with the profile prefix removed, which for
    an identifier [s] containing neither marker is [s] itself; [__dir__]
    gives the list [__keys__] of the class. *)
Theorem C9_introspection (s : string) (log : list string) :
  let st := mkState Person [("url", VStr (canonical_url s))] log in
  loaded st = false
  /\ __repr__ st =
       (Ok (Tag ("<Person "
                 ++ py_replace "http://www.wikitree.com/wiki/" "" (canonical_url s)
                 ++ ">")), st)
  /\ __dir__ st = (Ok (VList (map VStr __keys__)), st)
  /\ (contains "http://" s = false -> contains "/wiki" s = false ->
      __repr__ st = (Ok (Tag ("<Person " ++ s ++ ">")), st)).
Proof.
  intros st.
  assert (Hr : __repr__ st =
               (Ok (Tag ("<Person "
                         ++ py_replace "http://www.wikitree.com/wiki/" "" (canonical_url s)
                         ++ ">")), st)) by reflexivity.
  split; [reflexivity|]. split; [exact Hr|]. split; [reflexivity|].
  intros H1 H2. rewrite Hr, (canonical_url_bare s H1 H2), (py_replace_profile s H1).
  reflexivity.
Qed.

(** C10.  After a successful [load] the instance dictionary is the
    dictionary the normaliser returned for the fetched document, with
    [__data__] and [__loaded__] set in it; nothing of the previous dictionary
    remains.  Under every other name, [url] among them, the object holds what
    the normalised document holds, and nothing if the document has no such
    property; for a document without a property named [type] that is the
    property's value normalised under its own name. *)
Theorem C10_load_replaces (st st' : state)
    (Hload : load st = (Ok tt, st')) :
  exists u data items d,
    read_url st = Ok (VStr u)
    /\ web (List.length (fetched st)) u = Page (data :: items)
    /\ __process_microdata__ None (RDict data) = Ok (VDict d)
    /\ attrs st' =
         dict_set "__loaded__" (VBool true)
           (dict_set "__data__"
              (if has_key "type" data then embed (RDict data) else VSelfDict) d)
    /\ (forall k, k <> "__data__" -> k <> "__loaded__" ->
                  lookup k (attrs st') = lookup k d)
    /\ lookup "url" (attrs st') = lookup "url" d
    /\ (has_key "type" data = false ->
        forall k, k <> "__data__" -> k <> "__loaded__" ->
          match lookup k data with
          | None => lookup k (attrs st') = None
          | Some x => exists v, __process_microdata__ (Some k) x = Ok v /\ lookup k (attrs st') = Some v
          end).
Proof.
  apply load_Ok in Hload as (u & data & items & d & Hu & Hw & Hp & ->).
  exists u, data, items, d. cbn [attrs].
  assert (Hk : forall k, k <> "__data__" -> k <> "__loaded__" ->
               lookup k (dict_set "__loaded__" (VBool true)
                           (dict_set "__data__"
                              (if has_key "type" data then embed (RDict data) else VSelfDict) d))
               = lookup k d).
  { intros k H1 H2. rewrite !lookup_dict_set_other by assumption. reflexivity. }
  split; [exact Hu|]. split; [exact Hw|]. split; [exact Hp|]. split; [reflexivity|].
  split; [exact Hk|]. split; [apply Hk; discriminate|].
  intros Hty k H1 H2. rewrite (Hk k H1 H2).
  rewrite (process_untagged None data Hty) in Hp.
  destruct (map_values (fun k v => __process_microdata__ (Some k) v) data) as [d'|e] eqn:Hm;
    simpl in Hp; [|discriminate].
  inversion Hp; subst d'.
  exact (map_values_lookup _ _ _ k Hm).
Qed.

End Protocol.

(** ** Concrete runs *)

Lemma C2_single_load_witness :
  forces_load no_object_attr (new_Person "X-1") "name" = true
  /\ fst (getattr one_name_web no_object_attr (new_Person "X-1") "name")
     = Ok (VStr "Jane Doe")
  /\ fetched (reads one_name_web no_object_attr ["name"; "name"; "birthDate"]
                (snd (getattr one_name_web no_object_attr (new_Person "X-1") "name")))
     = ["http://www.wikitree.com/wiki/X-1"].
Proof.
  split; [reflexivity|]. split; [reflexivity|].
  destruct (proj2 (proj2 (C2_single_load one_name_web no_object_attr
                            (new_Person "X-1") "name")) eq_refl
              (VStr "Jane Doe")
              (snd (getattr one_name_web no_object_attr (new_Person "X-1") "name"))
              eq_refl) as (_ & _ & Hreads).
  rewrite Hreads. reflexivity.
Defined.

Lemma C4_empty_page_witness :
  read_url no_object_attr (new_Person "X-1") = Ok (VStr "http://www.wikitree.com/wiki/X-1")
  /\ load empty_web no_object_attr (new_Person "X-1")
     = (Raise IndexError,
        mkState Person [("url", VStr "http://www.wikitree.com/wiki/X-1")]
          ["http://www.wikitree.com/wiki/X-1"]).
Proof.
  split; [reflexivity|].
  exact (proj1 (C4_empty_page empty_web no_object_attr (new_Person "X-1")
                  "http://www.wikitree.com/wiki/X-1" eq_refl eq_refl)).
Defined.

(** C4 as the specification states it fails: the failure on a page without
    microdata is the index error itself. *)
Lemma C4_index_error :
  fst (load empty_web no_object_attr (new_Person "X-1")) = Raise IndexError
  /\ ~ distinct_failure (fst (load empty_web no_object_attr (new_Person "X-1"))).
Proof.
  split; [reflexivity|].
  intros (e & He & Hne). vm_compute in He. inversion He. congruence.
Qed.

Lemma C6_failed_load_witness :
  loaded no_object_attr (new_Person "X-1") = false
  /\ fst (load empty_web no_object_attr (new_Person "X-1")) = Raise IndexError
  /\ attrs (snd (load empty_web no_object_attr (new_Person "X-1")))
     = attrs (new_Person "X-1")
  /\ fetched (snd (getattr empty_web no_object_attr
                     (snd (load empty_web no_object_attr (new_Person "X-1"))) "name"))
     = ["http://www.wikitree.com/wiki/X-1"; "http://www.wikitree.com/wiki/X-1"].
Proof.
  split; [reflexivity|]. split; [reflexivity|].
  destruct (C6_failed_load empty_web no_object_attr (new_Person "X-1")
              (snd (load empty_web no_object_attr (new_Person "X-1")))
              IndexError eq_refl eq_refl) as (_ & Ha & _ & Hread).
  split; [exact Ha|].
  destruct (Hread "name" eq_refl) as (_ & _ & Hlog).
  rewrite (Hlog "http://www.wikitree.com/wiki/X-1" eq_refl). reflexivity.
Defined.

Lemma C9_introspection_witness :
  contains "http://" "Sloan-518" = false /\ contains "/wiki" "Sloan-518" = false
  /\ __repr__ one_name_web no_object_attr (new_Person "Sloan-518")
     = (Ok (Tag "<Person Sloan-518>"), new_Person "Sloan-518").
Proof.
  split; [reflexivity|]. split; [reflexivity|].
  exact (proj2 (proj2 (proj2 (C9_introspection one_name_web no_object_attr "Sloan-518" [])))
           eq_refl eq_refl).
Defined.

Lemma C10_load_replaces_witness :
  load one_name_web no_object_attr (new_Person "X-1")
  = (Ok tt,
     mkState Person
       [("name", VStr "Jane Doe"); ("__data__", VSelfDict); ("__loaded__", VBool true)]
       ["http://www.wikitree.com/wiki/X-1"])
  /\ exists d,
       __process_microdata__ None (RDict [("name", RList [RStr "Jane Doe"])]) = Ok (VDict d)
       /\ lookup "url" [("name", VStr "Jane Doe"); ("__data__", VSelfDict);
                        ("__loaded__", VBool true)] = lookup "url" d.
Proof.
  split; [reflexivity|].
  destruct (C10_load_replaces one_name_web no_object_attr (new_Person "X-1")
              (mkState Person
                 [("name", VStr "Jane Doe"); ("__data__", VSelfDict);
                  ("__loaded__", VBool true)]
                 ["http://www.wikitree.com/wiki/X-1"])
              eq_refl) as (u & data & items & d & _ & Hw & Hp & _ & _ & Hurl & _).
  inversion Hw; subst data. exists d. split; [exact Hp | exact Hurl].
Defined.

(** * Further properties of the normaliser *)

(** ** Tags, keys and text *)

(** Only the first listed type decides what a tagged bag becomes: the types
    after it can be changed at will. *)
Theorem first_tag_only (key : option string) (t : raw) (tys tys' : list raw) (d : rdict) :
  __process_microdata__ key (RDict (dict_set "type" (RList (t :: tys)) d))
  = __process_microdata__ key (RDict (dict_set "type" (RList (t :: tys')) d)).
Proof.
  rewrite !process_unfold. cbn [process_microdata_body getitem].
  unfold has_key. rewrite !lookup_dict_set_same.
  rewrite !(lookup_dict_set_other "properties" "type") by discriminate.
  reflexivity.
Qed.

Lemma map_values_keys (f : string -> raw -> result pyval) (d : rdict) d' :
  map_values f d = Ok d' -> keys d' = keys d.
Proof.
  revert d'; induction d as [|[k x] rest IH]; intros d' H; simpl in H.
  - inversion H; reflexivity.
  - destruct (f k x) as [v|e]; simpl in H; [|discriminate].
    destruct (map_values f rest) as [vs|e]; simpl in H; [|discriminate].
    inversion H; subst. simpl. f_equal. apply IH. reflexivity.
Qed.

(** A dictionary without a key [type] that normalises gives a dictionary with
    the same keys in the same order: no property is dropped, added or moved. *)
Theorem untagged_keys (key : option string) (d : rdict) (v : pyval)
    (Hplain : has_key "type" d = false)
    (Hok : __process_microdata__ key (RDict d) = Ok v) :
  exists d', v = VDict d' /\ keys d' = keys d.
Proof.
  rewrite (process_untagged key d Hplain) in Hok.
  destruct (map_values (fun k x => __process_microdata__ (Some k) x) d) as [d'|e] eqn:Hm;
    simpl in Hok; [|discriminate].
  inversion Hok; subst. exists d'. split; [reflexivity|].
  eapply map_values_keys; eauto.
Qed.

Lemma untagged_keys_witness :
  exists d',
    VDict [("name", VStr "Ann"); ("parent", VList [])] = VDict d'
    /\ keys d' = ["name"; "parent"].
Proof.
  exact (untagged_keys None [("name", RList [RStr "Ann"]); ("parent", RList [])]
           (VDict [("name", VStr "Ann"); ("parent", VList [])]) eq_refl eq_refl).
Defined.

Lemma map_result_text (k : string) (ss : list string) :
  map_result (__process_microdata__ (Some k)) (map RStr ss) = Ok (map VStr ss).
Proof.
  induction ss as [|s ss IH]; cbn [map map_result]; [reflexivity|].
  rewrite process_unfold. cbn [process_microdata_body rbind]. rewrite IH. reflexivity.
Qed.

(** A property whose values are all text: a single value of a name outside
    [__always_lists__] is unpacked to the text itself; in every other case
    the texts stay a list, in order.  Text never fails to normalise under a
    property name. *)
Theorem text_values (k : string) (ss : list string) :
  __process_microdata__ (Some k) (RList (map RStr ss)) =
  Ok (match ss with
      | [s] => if in_always_lists (Some k) then VList [VStr s] else VStr s
      | _ => VList (map VStr ss)
      end).
Proof.
  destruct ss as [|s [|s' ss]].
  - rewrite process_list by (left; simpl; lia). reflexivity.
  - cbn [map]. rewrite process_singleton, process_unfold. cbn [process_microdata_body].
    destruct (in_always_lists (Some k)); reflexivity.
  - rewrite process_list by (left; simpl; lia).
    rewrite map_result_text. reflexivity.
Qed.

(** ** What a normalised value is made of *)

Lemma construct_normal_form k url v : construct k url = Ok v -> normal_form v = true.
Proof.
  destruct k. unfold construct, Person_init.
  destruct (str_in "http://" url); [intros H; inversion H; reflexivity|].
  destruct (str_in "/wiki" url).
  - destruct (str_add site_origin url); simpl; intros H; inversion H; reflexivity.
  - destruct (str_add profile_template url); simpl; intros H; inversion H; reflexivity.
Qed.

Lemma map_items_normal_form (f : raw -> option (result pyval)) l vs :
  (forall x v, In x l -> f x = Some (Ok v) -> normal_form v = true) ->
  map_items f l = Some (Ok vs) -> forallb normal_form vs = true.
Proof.
  revert vs; induction l as [|x rest IH]; intros vs Hf H; simpl in H.
  - inversion H; reflexivity.
  - destruct (f x) as [[v|e]|] eqn:Hx; try discriminate.
    destruct (map_items f rest) as [[ws|e]|] eqn:Hr; try discriminate.
    inversion H; subst. simpl.
    rewrite (Hf x v) by (simpl; auto).
    apply IH; auto. intros; eapply Hf; simpl; eauto.
Qed.

Lemma map_entries_normal_form (f : string -> raw -> option (result pyval)) (d : rdict) vs :
  (forall k x v, In (k, x) d -> f k x = Some (Ok v) -> normal_form v = true) ->
  map_entries f d = Some (Ok vs) -> forallb (fun kv => normal_form (snd kv)) vs = true.
Proof.
  revert vs; induction d as [|[k x] rest IH]; intros vs Hf H; simpl in H.
  - inversion H; reflexivity.
  - destruct (f k x) as [[v|e]|] eqn:Hx; try discriminate.
    destruct (map_entries f rest) as [[ws|e]|] eqn:Hr; try discriminate.
    inversion H; subst. simpl.
    rewrite (Hf k x v) by (simpl; auto).
    apply IH; auto. intros; eapply Hf; simpl; eauto.
Qed.

Lemma process_microdata_n_normal_form n : forall key x v,
  process_microdata_n n key x = Some (Ok v) -> normal_form v = true.
Proof.
  induction n as [|n IH]; intros key x v H; [discriminate|].
  cbn [process_microdata_n] in H. destruct x as [s|l|d].
  - destruct key; [inversion H; reflexivity|].
    destruct (contains "type" s); discriminate.
  - destruct (Nat.eqb (List.length l) 1 && negb (in_always_lists key)).
    + destruct l as [|x rest]; [discriminate|]. eapply IH; eauto.
    + destruct (map_items (process_microdata_n n key) l) as [[vs|e]|] eqn:Hm;
        try discriminate.
      inversion H; subst. cbn [normal_form].
      eapply map_items_normal_form; [|exact Hm]. intros; eapply IH; eauto.
  - destruct (has_key "type" d).
    + destruct (ty <- getitem (RDict d) "type";; t0 <- index0 ty;; mapped_kind t0)
        as [[k|]|e]; try discriminate.
      * destruct (getitem (RDict d) "properties") as [props|e]; try discriminate.
        cbn [rbind] in H.
        destruct (getitem props "url") as [urls|e]; try discriminate.
        cbn [rbind] in H.
        destruct (index0 urls) as [url|e]; try discriminate.
        cbn [rbind] in H. inversion H as [Hc].
        eapply construct_normal_form; eauto.
      * destruct (props <- getitem (RDict d) "properties";; py_dict props);
          try discriminate.
        eapply IH; eauto.
    + destruct (map_entries (fun k v => process_microdata_n n (Some k) v) d)
        as [[vs|e]|] eqn:Hm; try discriminate.
      inversion H; subst. cbn [normal_form].
      eapply map_entries_normal_form; [|exact Hm].
      intros k x v Hin Hx. exact (IH (Some k) x v Hx).
Qed.

(** Whatever the normaliser returns is built from strings, lists,
    dictionaries and freshly constructed nodes: every node in it, at any
    depth, holds its [url] and nothing else, so none has been loaded or
    filled in; and no bookkeeping value occurs in it. *)
Theorem normalised_values (key : option string) (x : raw) (v : pyval)
    (Hok : __process_microdata__ key x = Ok v) :
  normal_form v = true.
Proof.
  apply (process_microdata_n_normal_form (height x) key x).
  rewrite process_n_spec by lia. rewrite Hok. reflexivity.
Qed.

Lemma normalised_values_witness :
  normal_form
    (VDict [("children",
             VList [VNode Person [("url", VStr "http://www.wikitree.com/wiki/X-2")]])])
  = true.
Proof.
  exact (normalised_values None
           (RDict
              [("children",
                RList [RDict [("type", RList [RStr "http://schema.org/Person"]);
                              ("properties", RDict [("url", RList [RStr "/wiki/X-2"])])]])])
           _ eq_refl).
Defined.

(** ** Well-formed documents normalise *)

Lemma map_result_total (f : raw -> result pyval) l :
  (forall x, In x l -> exists v, f x = Ok v) -> exists vs, map_result f l = Ok vs.
Proof.
  induction l as [|x rest IH]; intros Hf; simpl; [eauto|].
  destruct (Hf x) as [v ->]; [simpl; auto|].
  destruct IH as [vs ->]; [intros; apply Hf; simpl; auto|].
  simpl. eauto.
Qed.

Lemma map_values_total (f : string -> raw -> result pyval) (d : rdict) :
  (forall k x, In (k, x) d -> exists v, f k x = Ok v) -> exists d', map_values f d = Ok d'.
Proof.
  induction d as [|[k x] rest IH]; intros Hf; simpl; [eauto|].
  destruct (Hf k x) as [v ->]; [simpl; auto|].
  destruct IH as [vs ->]; [intros; apply Hf; simpl; auto|].
  simpl. eauto.
Qed.

Lemma process_list_total key l :
  (forall x, In x l -> exists v, __process_microdata__ key x = Ok v) ->
  exists v, __process_microdata__ key (RList l) = Ok v.
Proof.
  intros Hl. rewrite process_unfold. cbn [process_microdata_body].
  destruct (Nat.eqb (List.length l) 1 && negb (in_always_lists key)) eqn:E.
  - destruct l as [|x rest]; [discriminate|]. apply Hl. simpl; auto.
  - destruct (map_result_total _ l Hl) as [vs ->]. simpl. eauto.
Qed.

Lemma process_reference key (d : rdict) ty tys k props u urls :
  lookup "type" d = Some (RList (RStr ty :: tys)) ->
  lookup ty __type__mapping__ = Some k ->
  lookup "properties" d = Some (RDict props) ->
  lookup "url" props = Some (RList (RStr u :: urls)) ->
  __process_microdata__ key (RDict d) = Ok (VNode k [("url", VStr (canonical_url u))]).
Proof.
  intros Ht Hm Hp Hu. rewrite process_unfold. cbn [process_microdata_body getitem].
  unfold has_key. rewrite Ht, Hp. cbn [rbind index0 mapped_kind].
  rewrite Hm. cbn [rbind getitem]. rewrite Hu. cbn [rbind index0].
  destruct k. unfold construct. rewrite Person_init_str. reflexivity.
Qed.

Lemma wf_total n :
  (forall x k, height x <= n -> wf_item x = true ->
               exists v, __process_microdata__ (Some k) x = Ok v)
  /\ (forall p key, height (RDict p) <= n -> wf_props p = true ->
                    exists d, __process_microdata__ key (RDict p) = Ok (VDict d)).
Proof.
  induction n as [|n [IHitem IHprops]].
  - split.
    + intros x k Hh. pose proof (height_pos x). lia.
    + intros p key Hh. pose proof (height_pos (RDict p)). lia.
  - assert (Hprops : forall p key, height (RDict p) <= S n -> wf_props p = true ->
                     exists d, __process_microdata__ key (RDict p) = Ok (VDict d)).
    { intros p key Hh Hwf. unfold wf_props, props_ok in Hwf.
      apply andb_true_iff in Hwf as [Hty Hvals].
      apply negb_true_iff in Hty. rewrite (process_untagged key p Hty).
      destruct (map_values_total (fun k v => __process_microdata__ (Some k) v) p) as [d ->];
        [|simpl; eauto].
      intros k x Hin.
      pose proof (proj1 (forallb_forall _ _) Hvals (k, x) Hin) as Hx. cbn [snd] in Hx.
      destruct x as [|l|]; try discriminate.
      apply process_list_total. intros y Hy.
      apply IHitem; [|exact (proj1 (forallb_forall _ _) Hx y Hy)].
      pose proof (height_entry _ _ _ Hin). pose proof (height_item _ _ Hy). lia. }
    split; [|exact Hprops].
    intros x k Hh Hwf. destruct x as [s|l|d]; [|discriminate|].
    + rewrite process_unfold. cbn. eauto.
    + cbn [wf_item] in Hwf.
      destruct (lookup "type" d) as [ty|] eqn:Ht.
      * destruct ty as [|[|[t| |] tys]|]; try discriminate.
        destruct (lookup t __type__mapping__) as [kd|] eqn:Hm.
        -- destruct (lookup "properties" d) as [[|?|props]|] eqn:Hp; try discriminate.
           destruct (lookup "url" props) as [[|[|[u| |] urls]|]|] eqn:Hu; try discriminate.
           rewrite (process_reference _ _ _ _ _ _ _ _ Ht Hm Hp Hu). eauto.
        -- apply andb_true_iff in Hwf as [Hhas Hall].
           unfold has_key in Hhas.
           destruct (lookup "properties" d) as [pv|] eqn:Hp; [|discriminate].
           pose proof (lookup_In _ _ _ Hp) as Hin.
           pose proof (proj1 (forallb_forall _ _) Hall _ Hin) as Hpv.
           cbn [fst snd] in Hpv. rewrite String.eqb_refl in Hpv. cbn in Hpv.
           destruct pv as [|?|p]; try discriminate.
           rewrite (process_unmapped _ _ _ _ _ Ht Hm Hp).
           destruct (IHprops p (Some k)) as [d' ->]; [|exact Hpv|eauto].
           pose proof (height_entry _ _ _ Hin). lia.
      * assert (Hty : has_key "type" d = false) by (unfold has_key; rewrite Ht; reflexivity).
        rewrite (process_untagged _ d Hty).
        destruct (map_values_total (fun k v => __process_microdata__ (Some k) v) d) as [d' ->];
          [|simpl; eauto].
        intros k' x Hin.
        pose proof (proj1 (forallb_forall _ _) Hwf _ Hin) as Hx. cbn [fst snd] in Hx.
        destruct (String.eqb k' "properties").
        -- destruct x as [|?|p]; try discriminate.
           destruct (IHprops p (Some k')) as [d'' ->]; [|exact Hx|eauto].
           pose proof (height_entry _ _ _ Hin). lia.
        -- destruct x; try discriminate. rewrite process_unfold. cbn. eauto.
Qed.

(** A well-formed document normalises, under any key, to a dictionary with
    the keys of the document in their order; a well-formed item normalises
    under any property name.  Nothing is raised. *)
Theorem well_formed_normalises (p : rdict) (key : option string)
    (Hwf : wf_props p = true) :
  (exists d, __process_microdata__ key (RDict p) = Ok (VDict d) /\ keys d = keys p)
  /\ forall k l, In (k, RList l) p ->
       forall x, In x l -> exists v, __process_microdata__ (Some k) x = Ok v.
Proof.
  split.
  - destruct (proj2 (wf_total (height (RDict p))) p key (le_n _) Hwf) as [d Hd].
    exists d. split; [exact Hd|].
    unfold wf_props, props_ok in Hwf. apply andb_true_iff in Hwf as [Hty _].
    apply negb_true_iff in Hty.
    rewrite (process_untagged key p Hty) in Hd.
    destruct (map_values (fun k v => __process_microdata__ (Some k) v) p) as [d'|e] eqn:Hm;
      simpl in Hd; [|discriminate].
    inversion Hd; subst. eapply map_values_keys; eauto.
  - intros k l Hin x Hx.
    unfold wf_props, props_ok in Hwf. apply andb_true_iff in Hwf as [_ Hvals].
    pose proof (proj1 (forallb_forall _ _) Hvals _ Hin) as Hl. cbn [snd] in Hl.
    apply (proj1 (wf_total (height x)) x k (le_n _)).
    exact (proj1 (forallb_forall _ _) Hl x Hx).
Qed.

Lemma well_formed_normalises_witness :
  wf_props family_doc = true
  /\ exists d, __process_microdata__ None (RDict family_doc) = Ok (VDict d)
               /\ keys d = ["name"; "url"; "children"; "birth"].
Proof.
  split; [reflexivity|].
  exact (proj1 (well_formed_normalises family_doc None eq_refl)).
Defined.

(** * Further properties of construction *)

Lemma canonical_url_absolute (s : string) : contains "http://" (canonical_url s) = true.
Proof.
  unfold canonical_url. destruct (contains "http://" s) eqn:E; [exact E|].
  destruct (contains "/wiki" s); reflexivity.
Qed.

(** The [url] of a node is a fixed point of construction: it contains
    [http://], so building a node from the [url] of a node gives the same
    node again. *)
Theorem construct_idempotent (s : string) :
  contains "http://" (canonical_url s) = true
  /\ Person_init (RStr (canonical_url s)) = Person_init (RStr s)
  /\ new_Person (canonical_url s) = new_Person s.
Proof.
  pose proof (canonical_url_absolute s) as H.
  assert (E : canonical_url (canonical_url s) = canonical_url s).
  { unfold canonical_url at 1. rewrite H. reflexivity. }
  split; [exact H|]. split.
  - rewrite !Person_init_str, E. reflexivity.
  - unfold new_Person. rewrite E. reflexivity.
Qed.

(** Two identifiers that contain neither marker denote the same node only
    if they are equal. *)
Theorem distinct_identifiers (s1 s2 : string)
    (H1 : contains "http://" s1 = false) (H1' : contains "/wiki" s1 = false)
    (H2 : contains "http://" s2 = false) (H2' : contains "/wiki" s2 = false)
    (Hsame : Person_init (RStr s1) = Person_init (RStr s2)) :
  s1 = s2.
Proof.
  rewrite !Person_init_str in Hsame.
  rewrite (canonical_url_bare s1 H1 H1'), (canonical_url_bare s2 H2 H2') in Hsame.
  inversion Hsame. reflexivity.
Qed.

Lemma distinct_identifiers_witness : "Sloan-518" = "Sloan-518".
Proof.
  exact (distinct_identifiers "Sloan-518" "Sloan-518" eq_refl eq_refl eq_refl eq_refl
           eq_refl).
Defined.

(** * Further properties of the loading protocol *)

Lemma keys_dict_set_new {V} k (v : V) d :
  lookup k d = None -> keys (dict_set k v d) = (keys d ++ [k])%list.
Proof.
  induction d as [|[k' v'] rest IH]; simpl; intros H; [reflexivity|].
  destruct (String.eqb k k'); [discriminate|].
  simpl. f_equal. apply IH, H.
Qed.

Section ProtocolFurther.

Variable web : nat -> string -> response.
Variable object_attr : string -> option pyval.

#[local] Abbreviation loaded := (MicrodataView.loaded object_attr).
#[local] Abbreviation read_url := (MicrodataView.read_url object_attr).
#[local] Abbreviation load := (MicrodataView.load web object_attr).
#[local] Abbreviation getattr := (MicrodataView.getattr web object_attr).
#[local] Abbreviation getattribute := (MicrodataView.getattribute object_attr).
#[local] Abbreviation getattribute_or_raise := (MicrodataView.getattribute_or_raise object_attr).
#[local] Abbreviation forces_load := (MicrodataView.forces_load object_attr).
#[local] Abbreviation reads := (MicrodataView.reads web object_attr).
#[local] Abbreviation __dir__ := (MicrodataView.__dir__ web object_attr).

(** What [load] does when the page has an item that normalises. *)
Lemma load_success st u data items d :
  read_url st = Ok (VStr u) ->
  web (List.length (fetched st)) u = Page (data :: items) ->
  __process_microdata__ None (RDict data) = Ok (VDict d) ->
  load st =
    (Ok tt,
     mkState (cls st)
       (dict_set "__loaded__" (VBool true)
          (dict_set "__data__"
             (if has_key "type" data then embed (RDict data) else VSelfDict) d))
       (fetched st ++ [u])).
Proof.
  intros Hu Hw Hp. unfold MicrodataView.load. rewrite Hu, Hw, Hp. reflexivity.
Qed.

(** Reading the identity of a freshly constructed node never loads it, and
    the names that force a load are exactly those that are neither [url] nor
    bound in a class or on [object]. *)
Theorem fresh_node_reads (s : string) (log : list string) (name : string) :
  let st := mkState Person [("url", VStr (canonical_url s))] log in
  getattr st "url" = (Ok (VStr (canonical_url s)), st)
  /\ forces_load st name =
       negb (String.eqb name "url")
       && match class_attr Person name with
          | Some _ => false
          | None => match object_attr name with
                    | Some _ => false
                    | None => true
                    end
          end.
Proof.
  intros st. split; [reflexivity|]. subst st.
  unfold MicrodataView.forces_load, MicrodataView.getattribute. cbn [cls attrs lookup].
  destruct (String.eqb name "url"); [reflexivity|].
  destruct (class_attr Person name); [reflexivity|].
  destruct (object_attr name) eqn:Ho; [reflexivity|].
  unfold MicrodataView.loaded, MicrodataView.getattribute. reflexivity.
Qed.

(** A name the document does not provide: the read that forces the load
    still loads the node, with its one request, and then raises
    [AttributeError]; reading the name again raises the same without a
    request. *)
Theorem unknown_attribute (st st' : state) (name : string)
    (Hforce : forces_load st name = true)
    (Hload : load st = (Ok tt, st'))
    (Hmissing : getattribute (cls st') (attrs st') name = None) :
  getattr st name = (Raise AttributeError, st')
  /\ loaded st' = true
  /\ getattr st' name = (Raise AttributeError, st').
Proof.
  pose proof (load_Ok_loaded web object_attr _ _ Hload) as Hl.
  assert (E : getattribute_or_raise st' name = Raise AttributeError).
  { unfold MicrodataView.getattribute_or_raise. rewrite Hmissing. reflexivity. }
  split; [|split; [exact Hl|]].
  - rewrite (getattr_forced web object_attr _ _ Hforce), Hload, E. reflexivity.
  - rewrite (getattr_cached web object_attr st' name
               (loaded_no_force object_attr st' name Hl)), E.
    reflexivity.
Qed.

(** Every read logs at most one request and drops none, and the class of
    the node never changes. *)
Lemma getattr_log st name :
  cls (snd (getattr st name)) = cls st
  /\ (fetched (snd (getattr st name)) = fetched st
      \/ exists u, fetched (snd (getattr st name)) = (fetched st ++ [u])%list).
Proof.
  destruct (forces_load st name) eqn:Hf.
  - rewrite (getattr_forced web object_attr _ _ Hf).
    destruct (load st) as [[[]|e] st'] eqn:Hload; cbn [snd].
    + apply (load_Ok web object_attr) in Hload as (u & data & items & d & _ & _ & _ & ->).
      split; [reflexivity|]. right. exists u. reflexivity.
    + apply (load_Raise web object_attr) in Hload as (Hc & _ & [Hlog|(u & _ & Hlog)]);
        split; auto. right. eauto.
  - rewrite (getattr_cached web object_attr _ _ Hf). cbn [snd]. auto.
Qed.

(** Over any sequence of reads the log of requests only grows at its end, by
    at most one request per read, and the class of the node is kept. *)
Theorem reads_log (names : list string) : forall st,
  cls (reads names st) = cls st
  /\ exists extra,
       fetched (reads names st) = (fetched st ++ extra)%list
       /\ List.length extra <= List.length names.
Proof.
  induction names as [|name rest IH]; intros st; cbn [MicrodataView.reads].
  - split; [reflexivity|]. exists []. rewrite app_nil_r. simpl. auto.
  - destruct (IH (snd (getattr st name))) as (Hc & extra & Hlog & Hlen).
    destruct (getattr_log st name) as (Hc1 & [H1|(u & H1)]).
    + split; [congruence|]. exists extra. rewrite Hlog, H1. split; [reflexivity|simpl; lia].
    + split; [congruence|]. exists (u :: extra). rewrite Hlog, H1, <- app_assoc.
      split; [reflexivity|simpl; lia].
Qed.

(** Failures are passed on as they are: when the site cannot be reached
    [load] raises the transport error, and when the normaliser raises [e] on
    the first item [load] raises [e]; in both cases after one request, and
    the read that forced the load raises the same. *)
Theorem load_propagates (st : state) (u : string) (name : string)
    (Hurl : read_url st = Ok (VStr u))
    (Hforce : forces_load st name = true) :
  (web (List.length (fetched st)) u = Unreachable ->
   getattr st name = (Raise URLError, mkState (cls st) (attrs st) (fetched st ++ [u])))
  /\ (forall data items e,
        web (List.length (fetched st)) u = Page (data :: items) ->
        __process_microdata__ None (RDict data) = Raise e ->
        getattr st name = (Raise e, mkState (cls st) (attrs st) (fetched st ++ [u]))).
Proof.
  rewrite (getattr_forced web object_attr _ _ Hforce). unfold MicrodataView.load.
  rewrite Hurl. split.
  - intros ->. reflexivity.
  - intros data items e -> ->. reflexivity.
Qed.

(** A page whose first item is a well-formed document always loads: one
    request, and the node is loaded afterwards. *)
Theorem well_formed_page_loads (st : state) (u : string) (p : rdict) (items : list rdict)
    (Hurl : read_url st = Ok (VStr u))
    (Hpage : web (List.length (fetched st)) u = Page (p :: items))
    (Hwf : wf_props p = true) :
  exists st', load st = (Ok tt, st')
              /\ loaded st' = true
              /\ fetched st' = (fetched st ++ [u])%list.
Proof.
  destruct (proj2 (wf_total (height (RDict p))) p None (le_n _) Hwf) as [d Hd].
  pose proof (load_success st u p items d Hurl Hpage Hd) as Hload.
  eexists. split; [exact Hload|]. split; [|reflexivity].
  eapply (load_Ok_loaded web object_attr). exact Hload.
Qed.

(** Loading a document that has no property named [type]. *)
Lemma load_plain_document st u data items w :
  read_url st = Ok (VStr u) ->
  web (List.length (fetched st)) u = Page (data :: items) ->
  has_key "type" data = false ->
  __process_microdata__ None (RDict data) = Ok w ->
  exists d,
    map_values (fun k v => __process_microdata__ (Some k) v) data = Ok d
    /\ load st =
         (Ok tt,
          mkState (cls st)
            (dict_set "__loaded__" (VBool true) (dict_set "__data__" VSelfDict d))
            (fetched st ++ [u])).
Proof.
  intros Hu Hw Hty Hok.
  pose proof Hok as Hok'. rewrite (process_untagged None data Hty) in Hok'.
  destruct (map_values (fun k v => __process_microdata__ (Some k) v) data) as [d|e] eqn:Hm;
    simpl in Hok'; [|discriminate].
  inversion Hok'; subst w. exists d. split; [reflexivity|].
  rewrite (load_success st u data items d Hu Hw Hok), Hty. reflexivity.
Qed.

(** The first read of a property of the document: it loads the node with one
    request and returns the value of the property normalised under its own
    name; reading it again returns the same from the object. *)
Theorem first_read_returns_property (st : state) (u : string)
    (data : rdict) (items : list rdict) (w : pyval) (name : string) (x : raw)
    (Hurl : read_url st = Ok (VStr u))
    (Hforce : forces_load st name = true)
    (Hpage : web (List.length (fetched st)) u = Page (data :: items))
    (Hplain : has_key "type" data = false)
    (Hok : __process_microdata__ None (RDict data) = Ok w)
    (Hprop : lookup name data = Some x)
    (Hname : name <> "__data__" /\ name <> "__loaded__") :
  exists v st',
    __process_microdata__ (Some name) x = Ok v
    /\ getattr st name = (Ok v, st')
    /\ fetched st' = (fetched st ++ [u])%list
    /\ getattr st' name = (Ok v, st').
Proof.
  destruct (load_plain_document st u data items w Hurl Hpage Hplain Hok) as (d & Hm & Hload).
  pose proof (map_values_lookup _ _ _ name Hm) as Hl. rewrite Hprop in Hl.
  destruct Hl as (v & Hv & Hd). destruct Hname as [Hn1 Hn2].
  assert (Hlk : lookup name
                  (dict_set "__loaded__" (VBool true) (dict_set "__data__" VSelfDict d))
                = Some v).
  { rewrite !lookup_dict_set_other by assumption. exact Hd. }
  exists v.
  exists (mkState (cls st)
            (dict_set "__loaded__" (VBool true) (dict_set "__data__" VSelfDict d))
            (fetched st ++ [u])).
  split; [exact Hv|].
  split; [|split; [reflexivity|]].
  - rewrite (getattr_forced web object_attr _ _ Hforce), Hload.
    unfold MicrodataView.getattribute_or_raise, MicrodataView.getattribute.
    cbn [cls attrs]. rewrite Hlk. reflexivity.
  - unfold MicrodataView.getattr, MicrodataView.getattribute.
    cbn [cls attrs]. rewrite Hlk. reflexivity.
Qed.

(** An explicit second [load] is not a no-op.  It takes the address from the
    loaded object: when the document gave exactly one text [url], that
    address is requested next, whatever the node was constructed from; when
    the document gave no [url], the second [load] raises [AttributeError]
    and requests nothing. *)
Theorem reload_after_load (st : state) (u : string)
    (data : rdict) (items : list rdict) (w : pyval)
    (Hurl : read_url st = Ok (VStr u))
    (Hpage : web (List.length (fetched st)) u = Page (data :: items))
    (Hplain : has_key "type" data = false)
    (Hok : __process_microdata__ None (RDict data) = Ok w) :
  (forall u', lookup "url" data = Some (RList [RStr u']) ->
              fetched (snd (load (snd (load st)))) = (fetched st ++ [u; u'])%list)
  /\ (lookup "url" data = None -> object_attr "url" = None ->
      load (snd (load st)) = (Raise AttributeError, snd (load st))).
Proof.
  destruct (load_plain_document st u data items w Hurl Hpage Hplain Hok) as (d & Hm & Hload).
  pose proof (load_Ok_loaded web object_attr _ _ Hload) as Hld.
  pose proof (map_values_lookup _ _ _ "url" Hm) as Hl.
  rewrite Hload. cbn [snd].
  assert (Hlk : lookup "url"
                  (dict_set "__loaded__" (VBool true) (dict_set "__data__" VSelfDict d))
                = lookup "url" d).
  { rewrite !lookup_dict_set_other by discriminate. reflexivity. }
  split.
  - intros u' Hdoc. rewrite Hdoc in Hl. destruct Hl as (v & Hv & Hd).
    rewrite process_singleton, process_unfold in Hv.
    cbn in Hv. inversion Hv; subst v.
    rewrite (load_fetched web object_attr _ u').
    + cbn [fetched]. rewrite <- app_assoc. reflexivity.
    + unfold MicrodataView.read_url, MicrodataView.getattribute. cbn [cls attrs].
      rewrite Hlk, Hd. reflexivity.
  - intros Hdoc Hobj. rewrite Hdoc in Hl.
    unfold MicrodataView.load, MicrodataView.read_url.
    rewrite Hld. unfold MicrodataView.getattribute. cbn [cls attrs].
    rewrite Hlk, Hl, Hobj. destruct (cls st); reflexivity.
Qed.

(** After loading a document that has no property named [type], [__data__]
    or [__loaded__], [__dir__] lists the property names of the document in
    their order, followed by the two names [load] has added, and requests
    nothing. *)
Theorem dir_after_load (st : state) (u : string)
    (data : rdict) (items : list rdict) (w : pyval)
    (Hurl : read_url st = Ok (VStr u))
    (Hpage : web (List.length (fetched st)) u = Page (data :: items))
    (Hplain : has_key "type" data = false)
    (Hok : __process_microdata__ None (RDict data) = Ok w)
    (Hnames : lookup "__data__" data = None /\ lookup "__loaded__" data = None) :
  __dir__ (snd (load st))
  = (Ok (VList (map VStr (keys data ++ ["__data__"; "__loaded__"]))), snd (load st)).
Proof.
  destruct (load_plain_document st u data items w Hurl Hpage Hplain Hok) as (d & Hm & Hload).
  pose proof (load_Ok_loaded web object_attr _ _ Hload) as Hld.
  rewrite Hload. cbn [snd]. unfold MicrodataView.__dir__. rewrite Hld. cbn [attrs].
  destruct Hnames as [Hn1 Hn2].
  pose proof (map_values_lookup _ _ _ "__data__" Hm) as H1. rewrite Hn1 in H1.
  pose proof (map_values_lookup _ _ _ "__loaded__" Hm) as H2. rewrite Hn2 in H2.
  rewrite keys_dict_set_new
    by (rewrite lookup_dict_set_other by discriminate; exact H2).
  rewrite (keys_dict_set_new "__data__" VSelfDict d H1), (map_values_keys _ _ _ Hm).
  rewrite <- app_assoc. reflexivity.
Qed.

Hypothesis always_well_formed :
  forall n u, exists p items, web n u = Page (p :: items) /\ wf_props p = true.

(** On a site that always serves well-formed documents, a node whose [url]
    is a string loads at the first read that forces it; however many reads
    follow, it issues at most one request. *)
Theorem at_most_one_request (st : state) (u : string) (names : list string)
    (Hurl : read_url st = Ok (VStr u)) :
  List.length (fetched (reads names st)) <= S (List.length (fetched st))
  /\ (forall name, forces_load st name = true ->
                   loaded (snd (getattr st name)) = true).
Proof.
  assert (Hstep : forall name, forces_load st name = true ->
            loaded (snd (getattr st name)) = true
            /\ fetched (snd (getattr st name)) = (fetched st ++ [u])%list).
  { intros name Hf.
    destruct (always_well_formed (List.length (fetched st)) u) as (p & items & Hp & Hwf).
    destruct (proj2 (wf_total (height (RDict p))) p None (le_n _) Hwf) as [d Hd].
    pose proof (load_success st u p items d Hurl Hp Hd) as Hl.
    rewrite (getattr_forced web object_attr _ _ Hf), Hl. cbn [snd].
    split; [|reflexivity].
    eapply (load_Ok_loaded web object_attr). exact Hl. }
  split; [|intros name Hf; apply Hstep, Hf].
  induction names as [|name rest IH]; cbn [MicrodataView.reads]; [lia|].
  destruct (forces_load st name) eqn:Hf.
  - destruct (Hstep name Hf) as [Hld Hlog].
    rewrite (reads_loaded web object_attr rest _ Hld), Hlog, length_app. simpl. lia.
  - rewrite (getattr_cached web object_attr _ _ Hf). cbn [snd]. exact IH.
Qed.

End ProtocolFurther.

(** ** Concrete runs of the further properties *)

Lemma unknown_attribute_witness :
  forces_load no_object_attr (new_Person "X-1") "nickname" = true
  /\ fst (getattr family_web no_object_attr (new_Person "X-1") "nickname")
     = Raise AttributeError
  /\ loaded no_object_attr (snd (load family_web no_object_attr (new_Person "X-1"))) = true.
Proof.
  split; [reflexivity|].
  destruct (unknown_attribute family_web no_object_attr (new_Person "X-1")
              (snd (load family_web no_object_attr (new_Person "X-1")))
              "nickname" eq_refl eq_refl eq_refl) as (H1 & H2 & _).
  rewrite H1. split; [reflexivity | exact H2].
Defined.

Lemma load_propagates_witness :
  getattr down_web no_object_attr (new_Person "X-1") "name"
  = (Raise URLError,
     mkState Person [("url", VStr "http://www.wikitree.com/wiki/X-1")]
       ["http://www.wikitree.com/wiki/X-1"]).
Proof.
  exact (proj1 (load_propagates down_web no_object_attr (new_Person "X-1")
                  "http://www.wikitree.com/wiki/X-1" "name" eq_refl eq_refl)
           eq_refl).
Defined.

Lemma well_formed_page_loads_witness :
  exists st',
    load family_web no_object_attr (new_Person "X-1") = (Ok tt, st')
    /\ loaded no_object_attr st' = true
    /\ fetched st' = ["http://www.wikitree.com/wiki/X-1"].
Proof.
  exact (well_formed_page_loads family_web no_object_attr (new_Person "X-1")
           "http://www.wikitree.com/wiki/X-1" family_doc [] eq_refl eq_refl eq_refl).
Defined.

Lemma at_most_one_request_witness :
  List.length
    (fetched (reads family_web no_object_attr ["name"; "children"; "nickname"; "name"]
                (new_Person "X-1"))) <= 1.
Proof.
  exact (proj1 (at_most_one_request family_web no_object_attr
                  (fun n u => ex_intro _ family_doc
                                (ex_intro _ [] (conj eq_refl eq_refl)))
                  (new_Person "X-1") "http://www.wikitree.com/wiki/X-1"
                  ["name"; "children"; "nickname"; "name"] eq_refl)).
Defined.

Lemma first_read_returns_property_witness :
  exists v st',
    __process_microdata__ (Some "children")
      (RList [RDict [("type", RList [RStr "http://schema.org/Person"]);
                     ("properties", RDict [("url", RList [RStr "/wiki/X-2"])])]])
    = Ok v
    /\ getattr family_web no_object_attr (new_Person "X-1") "children" = (Ok v, st')
    /\ fetched st' = ["http://www.wikitree.com/wiki/X-1"]
    /\ getattr family_web no_object_attr st' "children" = (Ok v, st').
Proof.
  apply (first_read_returns_property family_web no_object_attr (new_Person "X-1")
           "http://www.wikitree.com/wiki/X-1" family_doc []
           (VDict [("name", VStr "Jane Doe");
                   ("url", VStr "http://www.wikitree.com/wiki/X-1");
                   ("children",
                    VList [VNode Person [("url", VStr "http://www.wikitree.com/wiki/X-2")]]);
                   ("birth", VDict [("properties", VDict [("date", VStr "1900")])])])
           "children");
    try reflexivity.
  split; discriminate.
Defined.

Lemma reload_after_load_witness :
  fetched (snd (load family_web no_object_attr
                  (snd (load family_web no_object_attr (new_Person "X-9")))))
  = ["http://www.wikitree.com/wiki/X-9"; "http://www.wikitree.com/wiki/X-1"].
Proof.
  apply (proj1 (reload_after_load family_web no_object_attr (new_Person "X-9")
                  "http://www.wikitree.com/wiki/X-9" family_doc []
                  (VDict [("name", VStr "Jane Doe");
                          ("url", VStr "http://www.wikitree.com/wiki/X-1");
                          ("children",
                           VList [VNode Person
                                    [("url", VStr "http://www.wikitree.com/wiki/X-2")]]);
                          ("birth", VDict [("properties", VDict [("date", VStr "1900")])])])
                  eq_refl eq_refl eq_refl eq_refl)
           "http://www.wikitree.com/wiki/X-1").
  reflexivity.
Defined.

Lemma dir_after_load_witness :
  fst (__dir__ family_web no_object_attr
         (snd (load family_web no_object_attr (new_Person "X-1"))))
  = Ok (VList [VStr "name"; VStr "url"; VStr "children"; VStr "birth";
               VStr "__data__"; VStr "__loaded__"]).
Proof.
  rewrite (dir_after_load family_web no_object_attr (new_Person "X-1")
             "http://www.wikitree.com/wiki/X-1" family_doc []
             (VDict [("name", VStr "Jane Doe");
                     ("url", VStr "http://www.wikitree.com/wiki/X-1");
                     ("children",
                      VList [VNode Person
                               [("url", VStr "http://www.wikitree.com/wiki/X-2")]]);
                     ("birth", VDict [("properties", VDict [("date", VStr "1900")])])])
             eq_refl eq_refl eq_refl eq_refl (conj eq_refl eq_refl)).
  reflexivity.
Defined.
